(** * date-string-fns: ISO8601 date strings and their arithmetic

    A shallow embedding of [src/index.ts] and the properties of its
    specification, settled against the code.

    Conventions of the embedding:
    - a JavaScript [number] that holds an integer is a [Z]; the rounding of
      IEEE-754 doubles is written out in [fl] and applied by every [+] and
      [-] of the source ([jsadd], [jssub]);
    - a JavaScript string is a [string] (a list of bytes); the only
      characters the code ever inspects are ASCII digits and the dash;
    - a [throw] is the [Throw] constructor of [result]; the two loops of
      [addDate] run on fuel, and [OutOfFuel] is shown unreachable. *)

From Stdlib Require Import ZArith List String Ascii Bool Lia DecimalString.
Import ListNotations.

#[local] Open Scope string_scope.
#[local] Open Scope Z_scope.

(** ** Numbers *)

Module JsNumber.

(** Rounding of an integer to the nearest double (53-bit significand, ties
    to even).  Integers of magnitude below [2^53] are doubles already; the
    library's sums stay below [2^54], far from the overflow to [Infinity]. *)
Definition fl (z : Z) : Z :=
  let a := Z.abs z in
  if a <? 2 ^ 53 then z
  else
    let ulp := 2 ^ (Z.log2 a - 52) in
    let q := a / ulp in
    let r := a mod ulp in
    let q' := if 2 * r <? ulp then q
              else if ulp <? 2 * r then q + 1
              else if Z.even q then q else q + 1 in
    Z.sgn z * (q' * ulp).

Definition jsadd (a b : Z) : Z := fl (a + b).
Definition jssub (a b : Z) : Z := fl (a - b).

(** A [number] handed to the library from outside: an integer, or a value
    that is none (a fraction, [NaN], [Infinity], [-Infinity]). *)
Inductive number : Type :=
| Int (z : Z)
| NotInt.

Definition MAX_SAFE_INTEGER : Z := 2 ^ 53 - 1.

(** [Number.isSafeInteger], returning the integer it accepts. *)
Definition isSafeInteger (n : number) : option Z :=
  match n with
  | Int z => if Z.abs z <=? MAX_SAFE_INTEGER then Some z else None
  | NotInt => None
  end.

(** [Number.prototype.toString] on an integer (magnitudes below [10^21],
    where JavaScript prints plain decimal digits). *)
Definition toString (n : Z) : string := NilZero.string_of_int (Z.to_int n).

Definition isDigit (c : ascii) : bool :=
  ((48 <=? nat_of_ascii c) && (nat_of_ascii c <=? 57))%nat.

Definition digitValue (c : ascii) : Z := Z.of_nat (nat_of_ascii c) - 48.

Fixpoint NumberFrom (acc : Z) (s : string) : Z :=
  match s with
  | EmptyString => acc
  | String c rest => NumberFrom (10 * acc + digitValue c) rest
  end.

(** [Number(s)] for a string of decimal digits, the only strings the
    library converts. *)
Definition Number (s : string) : Z := NumberFrom 0 s.

Fixpoint zeros (n : nat) : string :=
  match n with
  | O => EmptyString
  | S k => String "0" (zeros k)
  end.

(** [s.padStart(targetLength, '0')]. *)
Definition padStart (s : string) (targetLength : nat) : string :=
  zeros (targetLength - String.length s) ++ s.

End JsNumber.
Import JsNumber.

(** ** Errors and results *)

Inductive field : Type := Years | Months | Days.

(** The four [Error]s the library throws, by message. *)
Inductive error : Type :=
| InvalidMonth (month1to12 : Z)      (* Invalid month number: ... *)
| InvalidYear (year : Z)             (* Invalid year: ... *)
| InvalidDate (date : string)        (* Invalid date: ... *)
| NonIntegerIncrement (f : field).   (* addDate: ... increment must be an integer value *)

Inductive result (A : Type) : Type :=
| Ok (a : A)
| Throw (e : error)
| OutOfFuel.

Arguments Ok {A} a.
Arguments Throw {A} e.
Arguments OutOfFuel {A}.

Definition bind {A B : Type} (r : result A) (k : A -> result B) : result B :=
  match r with
  | Ok a => k a
  | Throw e => Throw e
  | OutOfFuel => OutOfFuel
  end.

Notation "x <- r ;; k" := (bind r (fun x => k))
  (at level 61, r at next level, right associativity).

(** ** Calendar rules and the validator *)

(** [buildIsoDateString]: the inner [pad] and the template string. *)
Definition pad (n : Z) (digits : nat) : string := padStart (toString n) digits.

Definition buildIsoDateString (day1To31 month1to12 year : Z) : string :=
  pad year 4 ++ "-" ++ pad month1to12 2 ++ "-" ++ pad day1To31 2.

(** The remainder [%] of JavaScript takes the sign of the dividend: [Z.rem]. *)
Definition isLeapYear (year : Z) : bool :=
  (Z.rem year 4 =? 0) && (negb (Z.rem year 100 =? 0) || (Z.rem year 400 =? 0)).

Definition maxDateInMonth1to12 (year : Z) : list Z :=
  [0; 31; if isLeapYear year then 29 else 28; 31; 30; 31; 30; 31; 31; 30; 31; 30; 31].

(** The two guards leave an index within the table, so the default of [nth]
    is never returned. *)
Definition getMaxDayInMonth (month1to12 year : Z) : result Z :=
  if (month1to12 <? 1) || (month1to12 >? 12) then Throw (InvalidMonth month1to12)
  else if (year <? 1) || (year >? 9999) then Throw (InvalidYear year)
  else Ok (nth (Z.to_nat month1to12) (maxDateInMonth1to12 year) 0).

Record YearRange : Type := { minYear : Z; maxYear : Z }.

Definition defaultYearRange : YearRange := {| minYear := 1; maxYear := 9999 |}.

Definition isValidDateIn (yearRange : YearRange) (day month year : Z) : result bool :=
  if (year <? minYear yearRange) || (year >? maxYear yearRange) then Ok false
  else if (month <? 1) || (month >? 12) then Ok false
  else if (day <? 1) || (day >? 31) then Ok false
  else maxDay <- getMaxDayInMonth month year ;; Ok (day <=? maxDay).

(** [isValidDate] with its default [yearRange], as every caller uses it. *)
Definition isValidDate (day month year : Z) : result bool :=
  isValidDateIn defaultYearRange day month year.

(** ** The codec *)

(** The match of [/^(\d\d\d\d)-(\d\d)-(\d\d)$/]: the three groups. *)
Definition matchIsoDate (s : string) : option (string * string * string) :=
  match s with
  | String y1 (String y2 (String y3 (String y4 (String s1
      (String m1 (String m2 (String s2 (String d1 (String d2 EmptyString))))))))) =>
      if forallb isDigit [y1; y2; y3; y4; m1; m2; d1; d2]
         && Ascii.eqb s1 "-" && Ascii.eqb s2 "-"
      then Some (String y1 (String y2 (String y3 (String y4 EmptyString))),
                 String m1 (String m2 EmptyString),
                 String d1 (String d2 EmptyString))
      else None
  | _ => None
  end.

(** A value of type [unknown]: a string, or anything else. *)
Inductive unknown : Type :=
| IsString (s : string)
| NotString.

Definition isValidIsoDateString (value : unknown) : result bool :=
  match value with
  | NotString => Ok false
  | IsString s =>
      match matchIsoDate s with
      | None => Ok false
      | Some (yyyy, mm, dd) => isValidDate (Number dd) (Number mm) (Number yyyy)
      end
  end.

Record DMY : Type := mkDMY { year : Z; month : Z; day : Z }.

Definition _toDMY (date : string) : result DMY :=
  match matchIsoDate date with
  | None => Throw (InvalidDate date)
  | Some (yyyy, mm, dd) =>
      Ok {| year := Number yyyy; month := Number mm; day := Number dd |}
  end.

Definition toDMY (date : string) : result DMY := _toDMY date.

Definition fromDMY (value : DMY) : string :=
  buildIsoDateString (day value) (month value) (year value).

(** ** The increment engine *)

Record Increment : Type :=
  mkIncrement { days : option number; months : option number; years : option number }.

(** The closure [checkMonthRollover] updates the [month] and [year] of the
    enclosing call; here it takes and returns them. *)
Definition checkMonthRollover (st : DMY) : DMY :=
  if month st <? 1 then
    {| year := jssub (year st) 1; month := jsadd (month st) 12; day := day st |}
  else if month st >? 12 then
    {| year := jsadd (year st) 1; month := jssub (month st) 12; day := day st |}
  else st.

Definition addYears (inc : option number) (st : DMY) : result DMY :=
  match inc with
  | None => Ok st
  | Some n =>
      match isSafeInteger n with
      | None => Throw (NonIntegerIncrement Years)
      | Some years =>
          Ok {| year := jsadd (year st) years; month := month st; day := day st |}
      end
  end.

(** [Math.trunc(months / 12)] is [Z.quot]: the quotient of a safe integer by
    12 lies at least 1/12 from the next integer, more than half a unit in
    the last place of a double of that size, so rounding the quotient never
    reaches it. *)
Definition addMonths (isLastDayInMonth : bool) (inc : option number) (st : DMY)
  : result DMY :=
  match inc with
  | None => Ok st
  | Some n =>
      match isSafeInteger n with
      | None => Throw (NonIntegerIncrement Months)
      | Some months =>
          let yearsFromMonths := Z.quot months 12 in
          (* yearsFromMonths * 12 is exact: its magnitude is at most that of months *)
          let st := {| year := jsadd (year st) yearsFromMonths;
                       month := jsadd (month st) (jssub months (yearsFromMonths * 12));
                       day := day st |} in
          let st := checkMonthRollover st in
          maxDay <- getMaxDayInMonth (month st) (year st) ;;
          Ok {| year := year st; month := month st;
                day := if isLastDayInMonth then maxDay else Z.min (day st) maxDay |}
      end
  end.

(** The body of [while (day < 1) { month -= 1; checkMonthRollover();
    day += getMaxDayInMonth(month, year); }]. *)
Definition stepBack (st : DMY) : result DMY :=
  let st := checkMonthRollover
              {| year := year st; month := jssub (month st) 1; day := day st |} in
  maxDay <- getMaxDayInMonth (month st) (year st) ;;
  Ok {| year := year st; month := month st; day := jsadd (day st) maxDay |}.

Fixpoint backLoop (fuel : nat) (st : DMY) : result DMY :=
  if day st <? 1 then
    match fuel with
    | O => OutOfFuel
    | S fuel' => st <- stepBack st ;; backLoop fuel' st
    end
  else Ok st.

(** What follows the [break] of the [for (;;)] loop:
    [day -= maxDay; month += 1; checkMonthRollover();]. *)
Definition stepForward (maxDay : Z) (st : DMY) : DMY :=
  checkMonthRollover
    {| year := year st; month := jsadd (month st) 1; day := jssub (day st) maxDay |}.

(** [for (;;) { const maxDay = getMaxDayInMonth(month, year);
    if (day <= maxDay) break; ... }] *)
Fixpoint forwardLoop (fuel : nat) (st : DMY) : result DMY :=
  match fuel with
  | O => OutOfFuel
  | S fuel' =>
      maxDay <- getMaxDayInMonth (month st) (year st) ;;
      if day st <=? maxDay then Ok st
      else forwardLoop fuel' (stepForward maxDay st)
  end.

(** Every iteration that goes on has looked up a month of a year within
    1..9999, and the months a loop looks up move one way: no run makes
    [12 * 10000] iterations ([backLoop_terminates], [forwardLoop_terminates]). *)
Definition loopFuel : nat := Z.to_nat (12 * 10000).

(** The months counted from year 0, the measure of both loops. *)
Definition monthIndex (st : DMY) : Z := 12 * year st + month st.

Definition addDays (inc : option number) (st : DMY) : result DMY :=
  match inc with
  | None => Ok st
  | Some n =>
      match isSafeInteger n with
      | None => Throw (NonIntegerIncrement Days)
      | Some days =>
          let st := {| year := year st; month := month st;
                       day := jsadd (day st) days |} in
          st <- backLoop loopFuel st ;;
          forwardLoop loopFuel st
      end
  end.

Definition addDate (date : string) (increment : Increment) : result string :=
  st <- _toDMY date ;;
  maxDay <- getMaxDayInMonth (month st) (year st) ;;
  let isLastDayInMonth := day st =? maxDay in
  st <- addYears (years increment) st ;;
  st <- addMonths isLastDayInMonth (months increment) st ;;
  st <- addDays (days increment) st ;;
  Ok (buildIsoDateString (day st) (month st) (year st)).

Definition noIncrement : Increment :=
  {| days := None; months := None; years := None |}.

Definition daysOnly (n : Z) : Increment :=
  {| days := Some (Int n); months := None; years := None |}.

Definition monthsOnly (n : Z) : Increment :=
  {| days := None; months := Some (Int n); years := None |}.

Definition yearsOnly (n : Z) : Increment :=
  {| days := None; months := None; years := Some (Int n) |}.

Definition incrementField (f : field) (increment : Increment) : option number :=
  match f with
  | Years => years increment
  | Months => months increment
  | Days => days increment
  end.

(** ** Conversion from the platform's [Date]

    A [Date] holding a time value, as the accessors the library calls read
    it: the local reading and the UTC reading. *)
Record Date : Type := {
  getFullYear : Z; getMonth : Z; getDate : Z; getDay : Z;
  getUTCFullYear : Z; getUTCMonth : Z; getUTCDate : Z; getUTCDay : Z
}.

Definition fromLocalDate (d : Date) : string :=
  buildIsoDateString (getDay d) (jsadd (getMonth d) 1) (getFullYear d).

Definition fromUTCDate (d : Date) : string :=
  buildIsoDateString (getUTCDay d) (jsadd (getUTCMonth d) 1) (getUTCFullYear d).

(** What ECMAScript fixes of the accessors, for years 1..9999: the month
    counts from 0, the day of the month is a day of that month, and the
    weekday (0 is Sunday) is that of the day in the Gregorian calendar,
    whose 0001-01-01 is a Monday. *)
Definition daysBeforeYear (y : Z) : Z :=
  365 * (y - 1) + (y - 1) / 4 - (y - 1) / 100 + (y - 1) / 400.

Definition daysBeforeMonth (m y : Z) : Z :=
  fold_right Z.add 0 (firstn (Z.to_nat m) (maxDateInMonth1to12 y)).

Definition weekDay (d m y : Z) : Z :=
  (daysBeforeYear y + daysBeforeMonth m y + d) mod 7.

Definition calendarReading (d : Date) : Prop :=
  isValidDate (getDate d) (getMonth d + 1) (getFullYear d) = Ok true /\
  getDay d = weekDay (getDate d) (getMonth d + 1) (getFullYear d) /\
  isValidDate (getUTCDate d) (getUTCMonth d + 1) (getUTCFullYear d) = Ok true /\
  getUTCDay d = weekDay (getUTCDate d) (getUTCMonth d + 1) (getUTCFullYear d).

(** Noon UTC of Friday 31 May 2013, read in a zone on UTC. *)
Definition may31st2013 : Date :=
  {| getFullYear := 2013; getMonth := 4; getDate := 31; getDay := 5;
     getUTCFullYear := 2013; getUTCMonth := 4; getUTCDate := 31; getUTCDay := 5 |}.

(** ** The month step as the specification words it

    Section 4.4, step 2: [carryYears = floor(months / 12)], then
    [while month < 1] and [while month > 12] move whole years, then the day
    is fixed.  The arithmetic is that of the integers. *)

Fixpoint specWhileBelow (fuel : nat) (month year : Z) : Z * Z :=
  if month <? 1 then
    match fuel with
    | O => (month, year)
    | S fuel' => specWhileBelow fuel' (month + 12) (year - 1)
    end
  else (month, year).

Fixpoint specWhileAbove (fuel : nat) (month year : Z) : Z * Z :=
  if month >? 12 then
    match fuel with
    | O => (month, year)
    | S fuel' => specWhileAbove fuel' (month - 12) (year + 1)
    end
  else (month, year).

(** Each round moves the month by 12, so the distance to 1..12 is fuel
    enough ([specNormalizeMonth_range]). *)
Definition specNormalizeMonth (month year : Z) : Z * Z :=
  let '(month, year) := specWhileBelow (Z.to_nat (1 - month)) month year in
  specWhileAbove (Z.to_nat month) month year.

Definition specMonthStep (wasLastDayOfMonth : bool) (months : Z) (st : DMY)
  : result DMY :=
  let carryYears := months / 12 in
  let year1 := year st + carryYears in
  let month1 := month st + (months - carryYears * 12) in
  let '(month2, year2) := specNormalizeMonth month1 year1 in
  maxDay <- getMaxDayInMonth month2 year2 ;;
  Ok {| year := year2; month := month2;
        day := if wasLastDayOfMonth then maxDay else Z.min (day st) maxDay |}.

(** Decode, month step, encode. *)
Definition specShiftMonths (date : string) (months : Z) : result string :=
  st <- _toDMY date ;;
  maxDay <- getMaxDayInMonth (month st) (year st) ;;
  let wasLastDayOfMonth := day st =? maxDay in
  st <- specMonthStep wasLastDayOfMonth months st ;;
  Ok (buildIsoDateString (day st) (month st) (year st)).

(** ** Checkers for the codec

    The codec works on fields of four and two digits; its properties are
    checked over every such field. *)

Fixpoint forallBelow (n : nat) (p : Z -> bool) : bool :=
  match n with
  | O => true
  | S k => p (Z.of_nat k) && forallBelow k p
  end.

Definition digitChars : list ascii :=
  ["0"; "1"; "2"; "3"; "4"; "5"; "6"; "7"; "8"; "9"]%char.

(** [pad n 4] is four digits that read back as [n]. *)
Definition padReadsBack4 (n : Z) : bool :=
  match pad n 4 with
  | String a (String b (String c (String d EmptyString))) =>
      forallb isDigit [a; b; c; d] && (Number (pad n 4) =? n)
  | _ => false
  end.

Definition padReadsBack2 (n : Z) : bool :=
  match pad n 2 with
  | String a (String b EmptyString) =>
      forallb isDigit [a; b] && (Number (pad n 2) =? n)
  | _ => false
  end.

(** Four digits read as a number below 10000 that pads back to them. *)
Definition readsPadBack4 (a b c d : ascii) : bool :=
  let s := String a (String b (String c (String d EmptyString))) in
  (0 <=? Number s) && (Number s <=? 9999) && String.eqb (pad (Number s) 4) s.

Definition readsPadBack2 (a b : ascii) : bool :=
  let s := String a (String b EmptyString) in
  (0 <=? Number s) && (Number s <=? 99) && String.eqb (pad (Number s) 2) s.

(** ** Auxiliary notions for the statements *)

(** A triple the validator accepts: a CalendarDate. *)
Definition validDMY (st : DMY) : Prop :=
  isValidDate (day st) (month st) (year st) = Ok true.

Definition withDay (st : DMY) (d : Z) : DMY :=
  {| year := year st; month := month st; day := d |}.

(** ** Convenience wrappers

    [new Date()] reads the clock; the reading is the argument [now]. *)
Definition todaysDate (now : Date) : string := fromLocalDate now.

Definition tomorrowsDate (now : Date) : result string :=
  addDate (todaysDate now) {| days := Some (Int 1); months := None; years := None |}.

Definition yesterdaysDate (now : Date) : result string :=
  addDate (todaysDate now) {| days := Some (Int (-1)); months := None; years := None |}.

(** ** The count of days

    The days of the Gregorian calendar counted from 0001-01-01, which is
    day 1; the last day the library reaches, 9999-12-31, is day 3652059. *)
Definition dayNumber (st : DMY) : Z :=
  daysBeforeYear (year st) + daysBeforeMonth (month st) (year st) + day st.

Definition lastDayNumber : Z := 3652059.

(** The sum of the twelve month lengths the library looks up. *)
Definition yearLength (year : Z) : result Z :=
  fold_right (fun m acc => a <- acc ;; b <- getMaxDayInMonth m year ;; Ok (a + b))
             (Ok 0) [1; 2; 3; 4; 5; 6; 7; 8; 9; 10; 11; 12].

(** A field of an increment that moves nothing: absent, or zero. *)
Definition zeroField (f : option number) : Prop := f = None \/ f = Some (Int 0).

(** An increment cut into its three fields. *)
Definition yearsPart (inc : Increment) : Increment :=
  {| days := None; months := None; years := years inc |}.

Definition monthsPart (inc : Increment) : Increment :=
  {| days := None; months := months inc; years := None |}.

Definition daysPart (inc : Increment) : Increment :=
  {| days := days inc; months := None; years := None |}.

(** * Properties *)

Example addDate_months_1 :
  addDate "2023-02-14" {| days := None; months := Some (Int 1); years := None |}
  = Ok "2023-03-14".
Proof. vm_compute. reflexivity. Qed.

Example addDate_days_minus_86 :
  addDate "2023-02-14" {| days := Some (Int (-86)); months := None; years := None |}
  = Ok "2022-11-20".
Proof. vm_compute. reflexivity. Qed.

Example addDate_last_day_of_2023 :
  addDate "2023-01-01" {| days := Some (Int (-1)); months := None; years := Some (Int 1) |}
  = Ok "2023-12-31".
Proof. vm_compute. reflexivity. Qed.

Ltac zbool :=
  repeat match goal with
    | H : context [Z.gtb ?a ?b] |- _ => rewrite (Z.gtb_ltb a b) in H
    | |- context [Z.gtb ?a ?b] => rewrite (Z.gtb_ltb a b)
    | H : context [Z.ltb ?a ?b] |- _ => destruct (Z.ltb_spec a b)
    | |- context [Z.ltb ?a ?b] => destruct (Z.ltb_spec a b)
    | H : context [Z.leb ?a ?b] |- _ => destruct (Z.leb_spec a b)
    | |- context [Z.leb ?a ?b] => destruct (Z.leb_spec a b)
    | H : context [Z.eqb ?a ?b] |- _ => destruct (Z.eqb_spec a b)
    | |- context [Z.eqb ?a ?b] => destruct (Z.eqb_spec a b)
    end; cbn [orb andb negb] in *.

Module FlFacts.

Lemma two53 : 2 ^ 53 = 9007199254740992.
Proof. reflexivity. Qed.

Lemma fl_exact (z : Z) : Z.abs z < 2 ^ 53 -> fl z = z.
Proof.
  intros H. unfold fl. cbv zeta.
  destruct (Z.ltb_spec (Z.abs z) (2 ^ 53)); [reflexivity | lia].
Qed.

Lemma fl_magnitude (z : Z) :
  2 ^ 53 <= Z.abs z ->
  exists p, 2 ^ 53 <= p /\ fl z = Z.sgn z * p.
Proof.
  intros H. unfold fl. cbv zeta.
  destruct (Z.ltb_spec (Z.abs z) (2 ^ 53)) as [Hlt | _]; [lia |].
  set (a := Z.abs z) in *.
  assert (Ha : 0 < a) by (rewrite two53 in H; lia).
  assert (Hlog : 53 <= Z.log2 a).
  { apply Z.log2_le_pow2; [exact Ha | exact H]. }
  set (ulp := 2 ^ (Z.log2 a - 52)).
  assert (Hulp : 2 <= ulp).
  { unfold ulp. change 2 with (2 ^ 1) at 1. apply Z.pow_le_mono_r; lia. }
  assert (Hsplit : 2 ^ Z.log2 a = 2 ^ 52 * ulp).
  { unfold ulp. rewrite <- Z.pow_add_r by lia. f_equal. lia. }
  assert (Hq : 2 ^ 52 <= a / ulp).
  { apply Z.div_le_lower_bound; [lia |].
    rewrite Z.mul_comm, <- Hsplit. apply Z.log2_spec. exact Ha. }
  match goal with
  | |- exists p, _ /\ Z.sgn z * (?q' * ulp) = _ =>
      assert (Hq' : a / ulp <= q')
  end.
  { repeat match goal with |- context [if ?c then _ else _] => destruct c end; lia. }
  eexists. split; [| reflexivity].
  rewrite two53. change (2 ^ 52) with 4503599627370496 in *. nia.
Qed.

Lemma fl_large_pos (z : Z) : 2 ^ 53 <= z -> 2 ^ 53 <= fl z.
Proof.
  intros H. rewrite two53 in *.
  destruct (fl_magnitude z) as (p & Hp & ->); rewrite ?two53; [lia |].
  rewrite two53 in Hp.
  rewrite Z.sgn_pos by lia. lia.
Qed.

Lemma fl_large_neg (z : Z) : z <= - 2 ^ 53 -> fl z <= - 2 ^ 53.
Proof.
  intros H. rewrite two53 in *.
  destruct (fl_magnitude z) as (p & Hp & ->); rewrite ?two53; [lia |].
  rewrite two53 in Hp.
  rewrite Z.sgn_neg by lia. lia.
Qed.

(** A result of small magnitude was computed exactly. *)
Lemma fl_small_inv (z : Z) : Z.abs (fl z) < 2 ^ 53 -> fl z = z.
Proof.
  intros H. rewrite two53 in *.
  destruct (Z_lt_le_dec (Z.abs z) (2 ^ 53)) as [Hs | Hl].
  - apply fl_exact. exact Hs.
  - rewrite two53 in Hl.
    destruct (Z_lt_le_dec z 0).
    + pose proof (fl_large_neg z). rewrite two53 in *. lia.
    + pose proof (fl_large_pos z). rewrite two53 in *. lia.
Qed.

Lemma fl_bounded_inv (z : Z) : - 2 ^ 53 < fl z < 2 ^ 53 -> fl z = z.
Proof. intros H. apply fl_small_inv. rewrite two53 in *. lia. Qed.

Lemma fl_pos (z : Z) : 1 <= z -> 1 <= fl z.
Proof.
  intros H. destruct (Z_lt_le_dec z (2 ^ 53)) as [Hs | Hl].
  - rewrite fl_exact; [exact H | rewrite two53 in *; lia].
  - pose proof (fl_large_pos z Hl). rewrite two53 in *. lia.
Qed.

Lemma fl_nonpos (z : Z) : z <= 31 -> 1 <= fl z -> fl z = z.
Proof.
  intros H Hp. destruct (Z_lt_le_dec (- 2 ^ 53) z) as [Hs | Hl].
  - apply fl_exact. rewrite two53 in *. lia.
  - pose proof (fl_large_neg z Hl). rewrite two53 in *. lia.
Qed.

End FlFacts.
Import FlFacts.

Ltac fl_simpl :=
  unfold jsadd, jssub in *;
  repeat match goal with
    | |- context [fl ?z] => rewrite (fl_exact z) by (rewrite two53; lia)
    | H : context [fl ?z] |- _ => rewrite (fl_exact z) in H by (rewrite two53; lia)
    end.

(** ** Calendar rules *)

Section CalendarRules.

Lemma getMaxDayInMonth_in_range (m y : Z) :
  1 <= m <= 12 -> 1 <= y <= 9999 ->
  exists maxDay, getMaxDayInMonth m y = Ok maxDay /\ 28 <= maxDay <= 31.
Proof.
  intros Hm Hy. unfold getMaxDayInMonth. zbool; try lia.
  eexists. split; [reflexivity |].
  assert (Hc : m = 1 \/ m = 2 \/ m = 3 \/ m = 4 \/ m = 5 \/ m = 6 \/ m = 7 \/
               m = 8 \/ m = 9 \/ m = 10 \/ m = 11 \/ m = 12) by lia.
  unfold maxDateInMonth1to12.
  repeat (destruct Hc as [-> | Hc]); try subst m;
    destruct (isLeapYear y); cbv; split; discriminate.
Qed.

Lemma getMaxDayInMonth_Ok (m y maxDay : Z) :
  getMaxDayInMonth m y = Ok maxDay ->
  1 <= m <= 12 /\ 1 <= y <= 9999 /\ 28 <= maxDay <= 31.
Proof.
  intros H.
  assert (Hr : 1 <= m <= 12 /\ 1 <= y <= 9999).
  { unfold getMaxDayInMonth in H. zbool; try discriminate. lia. }
  destruct Hr as [Hm Hy].
  destruct (getMaxDayInMonth_in_range m y Hm Hy) as (mx & E & B).
  rewrite E in H. injection H as <-. auto.
Qed.

Lemma getMaxDayInMonth_Throw (m y : Z) (e : error) :
  getMaxDayInMonth m y = Throw e ->
  (e = InvalidMonth m /\ (m < 1 \/ 12 < m)) \/
  (e = InvalidYear y /\ 1 <= m <= 12 /\ (y < 1 \/ 9999 < y)).
Proof.
  unfold getMaxDayInMonth. intros H. zbool; try discriminate;
    injection H as <-; (left; split; [reflexivity | lia]) ||
                       (right; split; [reflexivity | lia]).
Qed.

Lemma getMaxDayInMonth_not_OutOfFuel (m y : Z) : getMaxDayInMonth m y <> OutOfFuel.
Proof. unfold getMaxDayInMonth. zbool; discriminate. Qed.

(** The table lookup stays inside the table. *)
Lemma getMaxDayInMonth_index (m y maxDay : Z) :
  getMaxDayInMonth m y = Ok maxDay ->
  nth_error (maxDateInMonth1to12 y) (Z.to_nat m) = Some maxDay.
Proof.
  intros H. pose proof (getMaxDayInMonth_Ok _ _ _ H) as (Hm & Hy & _).
  unfold getMaxDayInMonth in H. zbool; try lia. injection H as <-.
  assert (Hc : m = 1 \/ m = 2 \/ m = 3 \/ m = 4 \/ m = 5 \/ m = 6 \/ m = 7 \/
               m = 8 \/ m = 9 \/ m = 10 \/ m = 11 \/ m = 12) by lia.
  repeat (destruct Hc as [-> | Hc]); try subst m; reflexivity.
Qed.

Lemma isValidDate_true (d m y : Z) :
  isValidDate d m y = Ok true <->
  exists maxDay, getMaxDayInMonth m y = Ok maxDay /\ 1 <= d <= maxDay.
Proof.
  unfold isValidDate, isValidDateIn, defaultYearRange. cbn [minYear maxYear].
  split.
  - intros H. zbool; try discriminate.
    destruct (getMaxDayInMonth_in_range m y) as (mx & E & B); try lia.
    rewrite E in H. cbn in H. exists mx. split; [exact E |].
    injection H as H. apply Z.leb_le in H. lia.
  - intros (mx & E & B).
    pose proof (getMaxDayInMonth_Ok _ _ _ E) as (Hm & Hy & Hx).
    zbool; try lia. rewrite E. cbn. f_equal. apply Z.leb_le. lia.
Qed.

End CalendarRules.

(** ** The codec *)

Section Codec.

Lemma forallBelow_spec (n : nat) (p : Z -> bool) :
  forallBelow n p = true -> forall z, 0 <= z < Z.of_nat n -> p z = true.
Proof.
  induction n as [| k IH]; intros H z Hz.
  - cbn in Hz. lia.
  - cbn [forallBelow] in H. apply andb_prop in H as [Hk Hrest].
    destruct (Z.eq_dec z (Z.of_nat k)) as [-> | Hne]; [exact Hk |].
    apply IH; [exact Hrest | lia].
Qed.

Lemma isDigit_digitChars (c : ascii) : isDigit c = true -> In c digitChars.
Proof.
  destruct c as [[] [] [] [] [] [] [] []]; intros H; vm_compute in H;
    try discriminate H; cbn; tauto.
Qed.

Lemma padReadsBack4_all (n : Z) : 0 <= n <= 9999 -> padReadsBack4 n = true.
Proof.
  intros H. apply (forallBelow_spec (Z.to_nat 10000)); [| lia].
  vm_compute. reflexivity.
Qed.

Lemma padReadsBack2_all (n : Z) : 0 <= n <= 99 -> padReadsBack2 n = true.
Proof.
  intros H. apply (forallBelow_spec (Z.to_nat 100)); [| lia].
  vm_compute. reflexivity.
Qed.

Lemma readsPadBack4_all (a b c d : ascii) :
  forallb isDigit [a; b; c; d] = true -> readsPadBack4 a b c d = true.
Proof.
  cbn [forallb]. rewrite !andb_true_iff. intros (Ha & Hb & Hc & Hd & _).
  apply isDigit_digitChars in Ha, Hb, Hc, Hd.
  assert (Hall : forallb (fun a => forallb (fun b => forallb (fun c =>
            forallb (fun d => readsPadBack4 a b c d) digitChars) digitChars)
            digitChars) digitChars = true) by (vm_compute; reflexivity).
  rewrite forallb_forall in Hall. specialize (Hall a Ha).
  rewrite forallb_forall in Hall. specialize (Hall b Hb).
  rewrite forallb_forall in Hall. specialize (Hall c Hc).
  rewrite forallb_forall in Hall. exact (Hall d Hd).
Qed.

Lemma readsPadBack2_all (a b : ascii) :
  forallb isDigit [a; b] = true -> readsPadBack2 a b = true.
Proof.
  cbn [forallb]. rewrite !andb_true_iff. intros (Ha & Hb & _).
  apply isDigit_digitChars in Ha, Hb.
  assert (Hall : forallb (fun a => forallb (fun b => readsPadBack2 a b)
            digitChars) digitChars = true) by (vm_compute; reflexivity).
  rewrite forallb_forall in Hall. specialize (Hall a Ha).
  rewrite forallb_forall in Hall. exact (Hall b Hb).
Qed.

(** Decoding what [buildIsoDateString] wrote gives the fields back. *)
Lemma toDMY_build (d m y : Z) :
  0 <= y <= 9999 -> 0 <= m <= 99 -> 0 <= d <= 99 ->
  _toDMY (buildIsoDateString d m y) = Ok {| year := y; month := m; day := d |}.
Proof.
  intros Hy Hm Hd.
  pose proof (padReadsBack4_all y Hy) as Cy.
  pose proof (padReadsBack2_all m Hm) as Cm.
  pose proof (padReadsBack2_all d Hd) as Cd.
  unfold padReadsBack4 in Cy. unfold padReadsBack2 in Cm, Cd.
  unfold _toDMY, buildIsoDateString.
  destruct (pad y 4) as [| y1 [| y2 [| y3 [| y4 [| ? ?]]]]]; try discriminate Cy.
  destruct (pad m 2) as [| m1 [| m2 [| ? ?]]]; try discriminate Cm.
  destruct (pad d 2) as [| d1 [| d2 [| ? ?]]]; try discriminate Cd.
  apply andb_prop in Cy as [Dy Ny], Cm as [Dm Nm], Cd as [Dd Nd].
  apply Z.eqb_eq in Ny, Nm, Nd.
  cbn [forallb] in Dy, Dm, Dd.
  repeat rewrite andb_true_iff in Dy.
  repeat rewrite andb_true_iff in Dm.
  repeat rewrite andb_true_iff in Dd.
  destruct Dy as (? & ? & ? & ? & _), Dm as (? & ? & _), Dd as (? & ? & _).
  cbn [append matchIsoDate forallb].
  repeat match goal with H : isDigit _ = true |- _ => rewrite H; clear H end.
  cbn [andb Ascii.eqb Bool.eqb].
  rewrite Ny, Nm, Nd. reflexivity.
Qed.

(** A string that matches the pattern, taken apart. *)
Lemma matchIsoDate_Some (s yyyy mm dd : string) :
  matchIsoDate s = Some (yyyy, mm, dd) ->
  exists y1 y2 y3 y4 m1 m2 d1 d2,
    s = yyyy ++ "-" ++ mm ++ "-" ++ dd /\
    yyyy = String y1 (String y2 (String y3 (String y4 EmptyString))) /\
    mm = String m1 (String m2 EmptyString) /\
    dd = String d1 (String d2 EmptyString) /\
    forallb isDigit [y1; y2; y3; y4] = true /\
    forallb isDigit [m1; m2] = true /\
    forallb isDigit [d1; d2] = true.
Proof.
  intros H. unfold matchIsoDate in H.
  destruct s as [| y1 [| y2 [| y3 [| y4 [| s1 [| m1 [| m2 [| s2 [| d1 [| d2 [| ? ?]]]]]]]]]]];
    try discriminate H.
  destruct (forallb isDigit [y1; y2; y3; y4; m1; m2; d1; d2]) eqn:Hd;
    cbn [andb] in H; try discriminate H.
  destruct (Ascii.eqb_spec s1 "-") as [-> |]; cbn [andb] in H; try discriminate H.
  destruct (Ascii.eqb_spec s2 "-") as [-> |]; cbn [andb] in H; try discriminate H.
  injection H as <- <- <-.
  cbn [forallb] in Hd. rewrite !andb_true_iff in Hd.
  destruct Hd as (? & ? & ? & ? & ? & ? & ? & ? & _).
  exists y1, y2, y3, y4, m1, m2, d1, d2.
  cbn [forallb append]. rewrite !andb_true_iff. intuition.
Qed.

(** Encoding what [_toDMY] read gives the string back. *)
Lemma build_toDMY (s : string) (t : DMY) :
  _toDMY s = Ok t ->
  fromDMY t = s /\ 0 <= year t <= 9999 /\ 0 <= month t <= 99 /\ 0 <= day t <= 99.
Proof.
  unfold _toDMY. intros H.
  destruct (matchIsoDate s) as [[[yyyy mm] dd] |] eqn:Hm; try discriminate H.
  injection H as <-.
  apply matchIsoDate_Some in Hm
    as (y1 & y2 & y3 & y4 & m1 & m2 & d1 & d2 & -> & -> & -> & -> & Dy & Dm & Dd).
  apply readsPadBack4_all in Dy. apply readsPadBack2_all in Dm, Dd.
  unfold readsPadBack4 in Dy. unfold readsPadBack2 in Dm, Dd. cbv zeta in *.
  repeat rewrite andb_true_iff in Dy.
  repeat rewrite andb_true_iff in Dm.
  repeat rewrite andb_true_iff in Dd.
  destruct Dy as [[Ly Uy] Ey], Dm as [[Lm Um] Em], Dd as [[Ld Ud] Ed].
  apply String.eqb_eq in Ey, Em, Ed.
  unfold fromDMY, buildIsoDateString. cbn [year month day].
  rewrite Ey, Em, Ed.
  split; [reflexivity |]. lia.
Qed.

End Codec.

(** ** The two loops of the day step *)

Section Loops.

Lemma DMY_eq (a b : DMY) :
  year a = year b -> month a = month b -> day a = day b -> a = b.
Proof. destruct a, b; cbn; intros; subst; reflexivity. Qed.

Lemma bind_Ok {A B : Type} (r : result A) (k : A -> result B) (b : B) :
  bind r k = Ok b -> exists a, r = Ok a /\ k a = Ok b.
Proof. destruct r; cbn; intros H; try discriminate H; eauto. Qed.

Lemma backLoop_S (f : nat) (st : DMY) :
  backLoop (S f) st =
  if day st <? 1 then st' <- stepBack st ;; backLoop f st' else Ok st.
Proof. reflexivity. Qed.

Lemma forwardLoop_S (f : nat) (st : DMY) :
  forwardLoop (S f) st =
  maxDay <- getMaxDayInMonth (month st) (year st) ;;
  if day st <=? maxDay then Ok st else forwardLoop f (stepForward maxDay st).
Proof. reflexivity. Qed.

(** One step back lands on the month before, whose length it adds. *)
Lemma stepBack_Ok (st st' : DMY) :
  stepBack st = Ok st' -> 1 <= month st <= 12 ->
  exists maxDay,
    getMaxDayInMonth (month st') (year st') = Ok maxDay /\
    day st' = fl (day st + maxDay) /\
    ((month st = 1 /\ month st' = 12 /\ year st' = year st - 1) \/
     (1 < month st /\ month st' = month st - 1 /\ year st' = year st)).
Proof.
  intros H Hm. unfold stepBack in H. cbv zeta in H.
  apply bind_Ok in H as (mx & E & H). injection H as <-.
  cbn [year month day]. exists mx.
  pose proof (getMaxDayInMonth_Ok _ _ _ E) as (Rm & Ry & _).
  revert E Rm Ry. unfold checkMonthRollover. cbn [year month day].
  fl_simpl. zbool; cbn [year month day]; intros E Rm Ry; try lia.
  - assert (Hy : fl (year st - 1) = year st - 1)
      by (apply fl_small_inv; rewrite two53; lia).
    rewrite Hy in *. repeat split; try assumption. left. lia.
  - repeat split; try assumption. right. lia.
Qed.

(** One step forward lands on the month after. *)
Lemma stepForward_spec (maxDay : Z) (st : DMY) :
  1 <= month st <= 12 -> Z.abs (year st) < 2 ^ 52 ->
  day (stepForward maxDay st) = fl (day st - maxDay) /\
  ((month st = 12 /\ month (stepForward maxDay st) = 1 /\
    year (stepForward maxDay st) = year st + 1) \/
   (month st < 12 /\ month (stepForward maxDay st) = month st + 1 /\
    year (stepForward maxDay st) = year st)).
Proof.
  intros Hm Hy. change (2 ^ 52) with 4503599627370496 in Hy.
  unfold stepForward, checkMonthRollover. cbn [year month day].
  fl_simpl. zbool; cbn [year month day]; fl_simpl; lia.
Qed.

Lemma stepBack_stepForward (maxDay : Z) (st : DMY) :
  getMaxDayInMonth (month st) (year st) = Ok maxDay ->
  stepBack (stepForward maxDay st) =
  Ok {| year := year st; month := month st;
        day := fl (fl (day st - maxDay) + maxDay) |}.
Proof.
  intros E. pose proof (getMaxDayInMonth_Ok _ _ _ E) as (Rm & Ry & _).
  destruct (stepForward_spec maxDay st Rm) as (Hd & Hc);
    [change (2 ^ 52) with 4503599627370496; lia |].
  unfold stepBack. cbv zeta. rewrite Hd.
  unfold checkMonthRollover. cbn [year month day].
  destruct Hc as [(M & -> & ->) | (M & -> & ->)];
    fl_simpl; zbool; cbn [year month day]; try lia; fl_simpl.
  - replace (year st + 1 - 1) with (year st) by lia.
    replace (1 - 1 + 12) with (month st) by lia.
    rewrite E. reflexivity.
  - replace (month st + 1 - 1) with (month st) by lia.
    rewrite E. reflexivity.
Qed.

Lemma stepForward_stepBack (st st' : DMY) (maxDay : Z) :
  stepBack st = Ok st' -> 1 <= month st <= 12 ->
  getMaxDayInMonth (month st') (year st') = Ok maxDay ->
  stepForward maxDay st' =
  {| year := year st; month := month st; day := fl (day st' - maxDay) |}.
Proof.
  intros H Hm E.
  destruct (stepBack_Ok _ _ H Hm) as (mx & E' & _ & Hc).
  pose proof (getMaxDayInMonth_Ok _ _ _ E) as (Rm & Ry & _).
  destruct (stepForward_spec maxDay st' Rm) as (Hd & Hc');
    [change (2 ^ 52) with 4503599627370496; lia |].
  apply DMY_eq; cbn [year month day]; [lia | lia | exact Hd].
Qed.

(** *** Fuel *)

Lemma backLoop_fuel_irrelevant (f : nat) :
  forall st, backLoop f st <> OutOfFuel -> backLoop (S f) st = backLoop f st.
Proof.
  induction f as [| f IH]; intros st H.
  - rewrite backLoop_S. cbn [backLoop] in *.
    destruct (day st <? 1); [congruence | reflexivity].
  - rewrite (backLoop_S (S f)). rewrite backLoop_S in H |- *.
    destruct (day st <? 1); [| reflexivity].
    destruct (stepBack st) as [st1 | e |]; cbn [bind] in *; try reflexivity.
    apply IH. exact H.
Qed.

Lemma forwardLoop_fuel_irrelevant (f : nat) :
  forall st, forwardLoop f st <> OutOfFuel -> forwardLoop (S f) st = forwardLoop f st.
Proof.
  induction f as [| f IH]; intros st H.
  - cbn [forwardLoop] in H. congruence.
  - rewrite (forwardLoop_S (S f)). rewrite forwardLoop_S in H |- *.
    destruct (getMaxDayInMonth (month st) (year st)) as [mx | e |];
      cbn [bind] in *; try reflexivity.
    destruct (day st <=? mx); [reflexivity |].
    apply IH. exact H.
Qed.

Lemma stepBack_not_OutOfFuel (st : DMY) : stepBack st <> OutOfFuel.
Proof.
  unfold stepBack. cbv zeta.
  match goal with |- context [getMaxDayInMonth ?m ?y] =>
    pose proof (getMaxDayInMonth_not_OutOfFuel m y);
    destruct (getMaxDayInMonth m y) end; cbn [bind]; congruence.
Qed.

(** The months behind a date of a year up to 10000 bound the back loop. *)
Lemma backLoop_terminates (f : nat) :
  forall st, 1 <= month st <= 12 -> (1 <= f)%nat ->
             (year st <= 10000 -> monthIndex st - 12 <= Z.of_nat f) ->
             backLoop f st <> OutOfFuel.
Proof.
  induction f as [| f IH]; intros st Hm Hf Hidx; [lia |].
  rewrite backLoop_S. destruct (day st <? 1); [| discriminate].
  destruct (stepBack st) as [st1 | e |] eqn:Hs; cbn [bind]; try discriminate.
  - destruct (stepBack_Ok _ _ Hs Hm) as (mx & E & _ & Hc).
    pose proof (getMaxDayInMonth_Ok _ _ _ E) as (Rm & Ry & _).
    unfold monthIndex in *. apply IH; lia.
  - exact (fun _ => stepBack_not_OutOfFuel st Hs).
Qed.

(** The months ahead of a date up to year 10000 bound the forward loop. *)
Lemma forwardLoop_terminates (f : nat) :
  forall st, 1 <= month st <= 12 -> (1 <= f)%nat ->
             (1 <= year st -> 120013 - monthIndex st <= Z.of_nat f) ->
             forwardLoop f st <> OutOfFuel.
Proof.
  induction f as [| f IH]; intros st Hm Hf Hidx; [lia |].
  rewrite forwardLoop_S.
  destruct (getMaxDayInMonth (month st) (year st)) as [mx | e |] eqn:E;
    cbn [bind]; try discriminate.
  - destruct (day st <=? mx); [discriminate |].
    pose proof (getMaxDayInMonth_Ok _ _ _ E) as (Rm & Ry & _).
    destruct (stepForward_spec mx st Rm) as (_ & Hc);
      [change (2 ^ 52) with 4503599627370496; lia |].
    unfold monthIndex in *. apply IH; lia.
  - exact (fun _ => getMaxDayInMonth_not_OutOfFuel _ _ E).
Qed.

Lemma loopFuel_S : exists f, loopFuel = S f /\ Z.of_nat f = 119999.
Proof.
  exists (Z.to_nat 119999). split; [| lia].
  unfold loopFuel. rewrite <- Z2Nat.inj_succ by lia. f_equal.
Qed.

(** With [loopFuel] the loops obey the equations of the [while] and the
    [for (;;)]; the fuel is out of the way from here on. *)
Lemma backLoop_unfold (st : DMY) :
  1 <= month st <= 12 ->
  backLoop loopFuel st =
  if day st <? 1 then st' <- stepBack st ;; backLoop loopFuel st' else Ok st.
Proof.
  intros Hm. destruct loopFuel_S as (f & -> & Hf).
  rewrite backLoop_S. destruct (day st <? 1); [| reflexivity].
  destruct (stepBack st) as [st1 | e |] eqn:Hs; cbn [bind]; try reflexivity.
  destruct (stepBack_Ok _ _ Hs Hm) as (mx & E & _ & Hc).
  pose proof (getMaxDayInMonth_Ok _ _ _ E) as (Rm & Ry & _).
  symmetry. apply backLoop_fuel_irrelevant.
  apply backLoop_terminates; unfold monthIndex; lia.
Qed.

Lemma forwardLoop_unfold (st : DMY) :
  1 <= month st <= 12 ->
  forwardLoop loopFuel st =
  maxDay <- getMaxDayInMonth (month st) (year st) ;;
  if day st <=? maxDay then Ok st else forwardLoop loopFuel (stepForward maxDay st).
Proof.
  intros Hm. destruct loopFuel_S as (f & -> & Hf).
  rewrite forwardLoop_S.
  destruct (getMaxDayInMonth (month st) (year st)) as [mx | e |] eqn:E;
    cbn [bind]; try reflexivity.
  destruct (day st <=? mx); [reflexivity |].
  pose proof (getMaxDayInMonth_Ok _ _ _ E) as (_ & Ry & _).
  destruct (stepForward_spec mx st Hm) as (_ & Hc);
    [change (2 ^ 52) with 4503599627370496; lia |].
  symmetry. apply forwardLoop_fuel_irrelevant.
  apply forwardLoop_terminates; unfold monthIndex; lia.
Qed.

(** *** What the loops return *)

Lemma validDMY_bounds (st : DMY) :
  validDMY st ->
  1 <= year st <= 9999 /\ 1 <= month st <= 12 /\ 1 <= day st <= 31 /\
  13 <= monthIndex st <= 120000.
Proof.
  unfold validDMY. rewrite isValidDate_true. intros (mx & E & B).
  pose proof (getMaxDayInMonth_Ok _ _ _ E). unfold monthIndex. lia.
Qed.

Lemma validDMY_intro (st : DMY) (maxDay : Z) :
  getMaxDayInMonth (month st) (year st) = Ok maxDay ->
  1 <= day st <= maxDay -> validDMY st.
Proof. intros E B. apply isValidDate_true. exists maxDay. auto. Qed.

(** The forward loop returns a calendar date, and the days it took off are
    the lengths of the months it left behind. *)
Lemma forwardLoop_Ok (f : nat) :
  forall st st',
    forwardLoop f st = Ok st' -> 1 <= month st <= 12 -> 1 <= day st ->
    validDMY st' /\ 1 <= year st <= 9999 /\
    0 <= day st - day st' <= 31 * (monthIndex st' - monthIndex st).
Proof.
  induction f as [| f IH]; intros st st' H Hm Hd; [discriminate H |].
  rewrite forwardLoop_S in H. apply bind_Ok in H as (mx & E & H).
  pose proof (getMaxDayInMonth_Ok _ _ _ E) as (_ & Ry & Rx).
  destruct (Z.leb_spec (day st) mx) as [Hle | Hgt].
  - injection H as <-. split; [| lia].
    apply (validDMY_intro st mx); [exact E | lia].
  - destruct (stepForward_spec mx st Hm) as (Hday & Hc);
      [change (2 ^ 52) with 4503599627370496; lia |].
    assert (Hm1 : 1 <= month (stepForward mx st) <= 12) by lia.
    assert (Hd1 : 1 <= day (stepForward mx st)).
    { rewrite Hday. apply fl_pos. lia. }
    destruct (IH _ _ H Hm1 Hd1) as (V & Ry1 & B).
    pose proof (validDMY_bounds _ V) as (_ & _ & Bd & Bi).
    assert (Hex : fl (day st - mx) = day st - mx).
    { apply fl_bounded_inv. rewrite two53. unfold monthIndex in *. lia. }
    rewrite Hex in Hday.
    split; [exact V |]. split; [exact Ry |]. unfold monthIndex in *. lia.
Qed.

(** The back loop: nothing to do from day 1 on; below, it returns a
    calendar date, and the days it added are the lengths of the months it
    entered. *)
Lemma backLoop_Ok (f : nat) :
  forall st st',
    backLoop f st = Ok st' -> 1 <= month st <= 12 ->
    1 <= month st' <= 12 /\ 1 <= day st' /\
    (1 <= day st -> st' = st) /\
    (day st < 1 ->
     validDMY st' /\
     0 <= day st' - day st <= 31 * (monthIndex st - monthIndex st')).
Proof.
  induction f as [| f IH]; intros st st' H Hm.
  - cbn [backLoop] in H. destruct (Z.ltb_spec (day st) 1); [discriminate H |].
    injection H as <-. repeat split; try lia.
  - rewrite backLoop_S in H. destruct (Z.ltb_spec (day st) 1) as [Hlt | Hge].
    + apply bind_Ok in H as (st1 & Hs & H).
      destruct (stepBack_Ok _ _ Hs Hm) as (mx & E & Hday & Hc).
      pose proof (getMaxDayInMonth_Ok _ _ _ E) as (Rm & Ry & Rx).
      destruct (IH _ _ H Rm) as (Hm' & Hd' & Hsame & Hmoved).
      split; [exact Hm' |]. split; [exact Hd' |]. split; [lia |]. intros _.
      destruct (Z_lt_le_dec (day st1) 1) as [Hlt1 | Hge1].
      * destruct (Hmoved Hlt1) as (V & B).
        pose proof (validDMY_bounds _ V) as (_ & _ & Bd & Bi).
        assert (Hex : fl (day st + mx) = day st + mx).
        { apply fl_bounded_inv. rewrite two53. unfold monthIndex in *. lia. }
        split; [exact V |]. unfold monthIndex in *. lia.
      * rewrite (Hsame Hge1) in *.
        assert (Hex : fl (day st + mx) = day st + mx).
        { apply fl_nonpos; lia. }
        split; [apply (validDMY_intro st1 mx); [exact E | lia] |].
        unfold monthIndex in *. lia.
    + injection H as <-. repeat split; try lia.
Qed.

(** *** Walking back over the months a forward walk crossed, and forward
    over those a backward walk crossed *)

Lemma stepForward_withDay (maxDay d : Z) (st : DMY) :
  1 <= month st <= 12 -> 1 <= year st <= 9999 ->
  stepForward maxDay (withDay st d) =
  withDay (stepForward maxDay st) (fl (d - maxDay)).
Proof.
  intros Hm Hy.
  destruct (stepForward_spec maxDay st Hm) as (_ & Hc);
    [change (2 ^ 52) with 4503599627370496; lia |].
  destruct (stepForward_spec maxDay (withDay st d) Hm) as (Hd & Hc');
    [change (2 ^ 52) with 4503599627370496; cbn; lia |].
  cbn [withDay year month day] in Hd, Hc'.
  apply DMY_eq; cbn [withDay year month day]; [lia | lia | exact Hd].
Qed.

Lemma back_over_forward (f : nat) :
  forall st st' y,
    forwardLoop f st = Ok st' -> 1 <= month st <= 12 -> 1 <= day st ->
    (forall maxDay, getMaxDayInMonth (month st) (year st) = Ok maxDay -> y <= maxDay) ->
    - 2 ^ 53 < y - (day st - day st') ->
    backLoop loopFuel (withDay st' (y - (day st - day st'))) =
    backLoop loopFuel (withDay st y).
Proof.
  induction f as [| f IH]; intros st st' y H Hm Hd Hy Hlow; [discriminate H |].
  pose proof (forwardLoop_Ok _ _ _ H Hm Hd) as (V & Ry & B).
  pose proof (validDMY_bounds _ V) as (_ & _ & Bd & Bi).
  rewrite forwardLoop_S in H. apply bind_Ok in H as (mx & E & H).
  pose proof (getMaxDayInMonth_Ok _ _ _ E) as (_ & _ & Rx).
  specialize (Hy mx E).
  destruct (Z.leb_spec (day st) mx) as [Hle | Hgt].
  - injection H as <-. f_equal. f_equal. lia.
  - destruct (stepForward_spec mx st Hm) as (Hday & Hc);
      [change (2 ^ 52) with 4503599627370496; lia |].
    assert (Hm1 : 1 <= month (stepForward mx st) <= 12) by lia.
    assert (Hd1 : 1 <= day (stepForward mx st)).
    { rewrite Hday. apply fl_pos. lia. }
    pose proof (forwardLoop_Ok _ _ _ H Hm1 Hd1) as (_ & Ry1 & B1).
    assert (Hex : fl (day st - mx) = day st - mx).
    { apply fl_bounded_inv. rewrite two53 in *. unfold monthIndex in *. lia. }
    rewrite Hex in Hday.
    assert (Hmx1 : forall maxDay,
               getMaxDayInMonth (month (stepForward mx st)) (year (stepForward mx st))
               = Ok maxDay -> y - mx <= maxDay).
    { intros mx1 E1. apply getMaxDayInMonth_Ok in E1. lia. }
    specialize (IH _ _ (y - mx) H Hm1 Hd1 Hmx1).
    replace (y - mx - (day (stepForward mx st) - day st'))
      with (y - (day st - day st')) in IH by lia.
    rewrite (IH Hlow).
    rewrite (backLoop_unfold (withDay (stepForward mx st) (y - mx)))
      by (cbn [withDay month]; lia).
    cbn [withDay day]. destruct (Z.ltb_spec (y - mx) 1) as [_ | Hc1]; [| lia].
    pose proof (stepBack_stepForward mx (withDay st y)) as Hinv.
    cbn [withDay year month day] in Hinv. specialize (Hinv E).
    rewrite stepForward_withDay in Hinv by lia.
    rewrite two53 in Hlow.
    rewrite (fl_exact (y - mx)) in Hinv by (rewrite two53; lia).
    replace (y - mx + mx) with y in Hinv by lia.
    rewrite (fl_exact y) in Hinv by (rewrite two53; lia).
    unfold withDay in Hinv |- *. rewrite Hinv. reflexivity.
Qed.

Lemma stepBack_withDay (st st' : DMY) (d : Z) :
  stepBack st = Ok st' -> 1 <= month st <= 12 ->
  exists maxDay,
    getMaxDayInMonth (month st') (year st') = Ok maxDay /\
    stepForward maxDay (withDay st' d) = withDay st (fl (d - maxDay)).
Proof.
  intros Hs Hm.
  destruct (stepBack_Ok _ _ Hs Hm) as (mx & E & Hday & Hc).
  pose proof (getMaxDayInMonth_Ok _ _ _ E) as (Rm & Ry & _).
  exists mx. split; [exact E |].
  destruct (stepForward_spec mx (withDay st' d)) as (Hd & Hc');
    [cbn; lia | change (2 ^ 52) with 4503599627370496; cbn; lia |].
  cbn [withDay year month day] in Hd, Hc'.
  apply DMY_eq; cbn [withDay year month day]; [lia | lia | exact Hd].
Qed.

Lemma forward_over_back (f : nat) :
  forall st st' y,
    backLoop f st = Ok st' -> 1 <= month st <= 12 ->
    1 <= y -> y + (day st' - day st) < 2 ^ 53 ->
    forwardLoop loopFuel (withDay st' (y + (day st' - day st))) =
    forwardLoop loopFuel (withDay st y).
Proof.
  assert (Hstay : forall st st' y, st' = st ->
            forwardLoop loopFuel (withDay st' (y + (day st' - day st))) =
            forwardLoop loopFuel (withDay st y)).
  { intros st st' y ->. f_equal. f_equal. lia. }
  induction f as [| f IH]; intros st st' y H Hm Hy Hup.
  - cbn [backLoop] in H. destruct (day st <? 1); [discriminate H |].
    injection H as <-. apply Hstay. reflexivity.
  - pose proof (backLoop_Ok _ _ _ H Hm) as (_ & _ & _ & Hmoved).
    rewrite backLoop_S in H. destruct (Z.ltb_spec (day st) 1) as [Hlt | Hge].
    + destruct (Hmoved Hlt) as (V & B).
      pose proof (validDMY_bounds _ V) as (_ & _ & Bd & Bi).
      apply bind_Ok in H as (st1 & Hs & H).
      destruct (stepBack_Ok _ _ Hs Hm) as (mx & E & Hday & Hc).
      pose proof (getMaxDayInMonth_Ok _ _ _ E) as (Rm & Ry & Rx).
      pose proof (backLoop_Ok _ _ _ H Rm) as (_ & Hd' & Hsame1 & Hmoved1).
      assert (Hex : fl (day st + mx) = day st + mx).
      { apply fl_exact. rewrite two53. unfold monthIndex in *. lia. }
      rewrite Hex in Hday.
      specialize (IH _ _ (y + mx) H Rm).
      replace (y + mx + (day st' - day st1)) with (y + (day st' - day st)) in IH by lia.
      rewrite IH by lia.
      rewrite (forwardLoop_unfold (withDay st1 (y + mx))) by (cbn [withDay month]; lia).
      cbn [withDay year month day]. rewrite E. cbn [bind].
      destruct (Z.leb_spec (y + mx) mx) as [Hc1 | _]; [lia |].
      destruct (stepBack_withDay _ _ (y + mx) Hs Hm) as (mx' & E' & Hinv).
      rewrite E in E'. injection E' as <-.
      rewrite Hinv.
      replace (y + mx - mx) with y by lia.
      rewrite two53 in Hup.
      rewrite (fl_exact y) by (rewrite two53; lia). reflexivity.
    + injection H as <-. apply Hstay. reflexivity.
Qed.

End Loops.

(** ** The steps of the increment engine *)

Section Engine.

Lemma quot12 (n : Z) :
  - 11 <= n - Z.quot n 12 * 12 <= 11 /\
  (0 <= n -> 0 <= n - Z.quot n 12 * 12 /\ Z.quot n 12 = n / 12) /\
  (n <= 0 -> n - Z.quot n 12 * 12 <= 0) /\
  Z.abs (Z.quot n 12) <= Z.abs n.
Proof.
  pose proof (Z.quot_rem' n 12) as E.
  destruct (Z_le_gt_dec 0 n) as [Hn | Hn].
  - pose proof (Z.rem_bound_pos n 12 Hn ltac:(lia)).
    assert (Z.quot n 12 = n / 12) by (apply Z.quot_div_nonneg; lia).
    lia.
  - pose proof (Z.rem_bound_pos_neg n 12 ltac:(lia) ltac:(lia)). lia.
Qed.

Lemma isSafeInteger_Some (n : number) (z : Z) :
  isSafeInteger n = Some z <-> n = Int z /\ Z.abs z <= MAX_SAFE_INTEGER.
Proof.
  unfold isSafeInteger. destruct n as [z' |].
  - destruct (Z.leb_spec (Z.abs z') MAX_SAFE_INTEGER); split.
    + intros H'; injection H' as <-. auto.
    + intros [H' _]. injection H' as <-. reflexivity.
    + discriminate.
    + intros [H' B]. injection H' as <-. lia.
  - split; [discriminate | intros [H' _]; discriminate H'].
Qed.

Lemma MAX_SAFE_INTEGER_val : MAX_SAFE_INTEGER = 9007199254740991.
Proof. reflexivity. Qed.

(** Where the months of a safe integer land, before the lookup. *)
Lemma month_landing_month (st : DMY) (n : Z) :
  1 <= month st <= 12 -> Z.abs n <= MAX_SAFE_INTEGER ->
  let land := checkMonthRollover
                {| year := jsadd (year st) (Z.quot n 12);
                   month := jsadd (month st) (jssub n (Z.quot n 12 * 12));
                   day := day st |} in
  1 <= month land <= 12 /\ day land = day st.
Proof.
  intros Hm Hn. pose proof (quot12 n) as (Hr & _).
  cbv zeta. unfold checkMonthRollover. cbn [year month day].
  assert (E1 : jssub n (Z.quot n 12 * 12) = n - Z.quot n 12 * 12)
    by (unfold jssub; apply fl_exact; rewrite two53; lia).
  rewrite E1.
  assert (E2 : jsadd (month st) (n - Z.quot n 12 * 12)
               = month st + (n - Z.quot n 12 * 12))
    by (unfold jsadd; apply fl_exact; rewrite two53; lia).
  rewrite E2.
  zbool; cbn [year month day]; fl_simpl; lia.
Qed.

Lemma month_landing (st : DMY) (n : Z) :
  1 <= month st <= 12 -> Z.abs (year st) < 2 ^ 53 - 2 ^ 52 ->
  Z.abs n <= MAX_SAFE_INTEGER ->
  let land := checkMonthRollover
                {| year := jsadd (year st) (Z.quot n 12);
                   month := jsadd (month st) (jssub n (Z.quot n 12 * 12));
                   day := day st |} in
  1 <= month land <= 12 /\ monthIndex land = monthIndex st + n /\ day land = day st.
Proof.
  intros Hm Hy Hn. rewrite MAX_SAFE_INTEGER_val in Hn.
  change (2 ^ 53 - 2 ^ 52) with 4503599627370496 in Hy.
  pose proof (quot12 n) as (Hr & _ & _ & Hq).
  assert (Hq' : Z.abs (Z.quot n 12) * 12 <= Z.abs n).
  { pose proof (Z.quot_rem' n 12) as E.
    destruct (Z_le_gt_dec 0 n) as [Hp | Hp].
    - pose proof (Z.rem_bound_pos n 12 Hp ltac:(lia)). lia.
    - pose proof (Z.rem_bound_pos_neg n 12 ltac:(lia) ltac:(lia)). lia. }
  cbv zeta. unfold checkMonthRollover, monthIndex. cbn [year month day].
  fl_simpl. zbool; cbn [year month day]; fl_simpl; lia.
Qed.

Lemma addMonths_Some_Ok (b : bool) (n : Z) (st st' : DMY) :
  addMonths b (Some (Int n)) st = Ok st' ->
  1 <= month st <= 12 -> Z.abs (year st) < 2 ^ 53 - 2 ^ 52 ->
  Z.abs n <= MAX_SAFE_INTEGER /\
  exists maxDay,
    getMaxDayInMonth (month st') (year st') = Ok maxDay /\
    monthIndex st' = monthIndex st + n /\
    day st' = if b then maxDay else Z.min (day st) maxDay.
Proof.
  intros H Hm Hy. unfold addMonths in H.
  destruct (isSafeInteger (Int n)) as [z |] eqn:Hs; [| discriminate H].
  apply isSafeInteger_Some in Hs as [Hz Hn]. injection Hz as <-.
  split; [exact Hn |].
  cbv zeta in H. apply bind_Ok in H as (mx & E & H). injection H as <-.
  pose proof (month_landing st n Hm Hy Hn) as (L1 & L2 & L3). cbv zeta in L1, L2, L3.
  cbn [year month day]. exists mx. rewrite L3. auto.
Qed.

Lemma addMonths_Some_landing (b : bool) (n : Z) (st : DMY) :
  1 <= month st <= 12 -> 1 <= year st <= 9999 ->
  Z.abs n <= MAX_SAFE_INTEGER ->
  13 <= monthIndex st + n <= 120000 ->
  exists st', addMonths b (Some (Int n)) st = Ok st'.
Proof.
  intros Hm Hy Hn Hl. unfold addMonths.
  assert (Hs : isSafeInteger (Int n) = Some n) by (apply isSafeInteger_Some; auto).
  rewrite Hs. cbv zeta.
  pose proof (month_landing st n Hm) as L. cbv zeta in L.
  destruct L as (L1 & L2 & L3);
    [change (2 ^ 53 - 2 ^ 52) with 4503599627370496; lia | exact Hn |].
  match goal with |- context [getMaxDayInMonth ?m ?y] =>
    destruct (getMaxDayInMonth_in_range m y) as (mx & E & _) end;
    [exact L1 | unfold monthIndex in L2, Hl; lia |].
  rewrite E. cbn [bind]. eexists. reflexivity.
Qed.

Lemma stepBack_Throw (st : DMY) (e : error) :
  stepBack st = Throw e -> 1 <= month st <= 12 ->
  exists y, e = InvalidYear y /\ (y < 1 \/ 9999 < y).
Proof.
  intros H Hm. unfold stepBack in H. cbv zeta in H.
  match type of H with context [getMaxDayInMonth ?m ?y] =>
    destruct (getMaxDayInMonth m y) as [mx | e' |] eqn:E end;
    cbn [bind] in H; try discriminate H.
  injection H as <-.
  apply getMaxDayInMonth_Throw in E as [(_ & Hbad) | (-> & _ & Hbad)].
  - exfalso. revert Hbad. unfold checkMonthRollover. cbn [year month day].
    fl_simpl. zbool; cbn [year month day]; fl_simpl; lia.
  - eexists. split; [reflexivity | exact Hbad].
Qed.

Lemma backLoop_Throw (f : nat) :
  forall st e, backLoop f st = Throw e -> 1 <= month st <= 12 ->
               exists y, e = InvalidYear y /\ (y < 1 \/ 9999 < y).
Proof.
  induction f as [| f IH]; intros st e H Hm.
  - cbn [backLoop] in H. destruct (day st <? 1); discriminate H.
  - rewrite backLoop_S in H. destruct (day st <? 1); [| discriminate H].
    destruct (stepBack st) as [st1 | e' |] eqn:Hs; cbn [bind] in H;
      try discriminate H.
    + destruct (stepBack_Ok _ _ Hs Hm) as (mx & E & _ & Hc).
      apply (IH st1 e H). lia.
    + injection H as <-. exact (stepBack_Throw _ _ Hs Hm).
Qed.

Lemma forwardLoop_Throw (f : nat) :
  forall st e, forwardLoop f st = Throw e -> 1 <= month st <= 12 ->
               exists y, e = InvalidYear y /\ (y < 1 \/ 9999 < y).
Proof.
  induction f as [| f IH]; intros st e H Hm; [discriminate H |].
  rewrite forwardLoop_S in H.
  destruct (getMaxDayInMonth (month st) (year st)) as [mx | e' |] eqn:E;
    cbn [bind] in H; try discriminate H.
  - destruct (day st <=? mx); [discriminate H |].
    pose proof (getMaxDayInMonth_Ok _ _ _ E) as (_ & Ry & _).
    destruct (stepForward_spec mx st Hm) as (_ & Hc);
      [change (2 ^ 52) with 4503599627370496; lia |].
    apply (IH _ e H). lia.
  - injection H as <-.
    apply getMaxDayInMonth_Throw in E as [(_ & Hbad) | (-> & _ & Hbad)]; [lia |].
    eexists. split; [reflexivity | exact Hbad].
Qed.

(** The day step on a month within 1..12: it returns a calendar date, or
    it has looked up a year outside 1..9999, or the increment is no safe
    integer; it never runs out of fuel. *)
Lemma addDays_outcome (inc : option number) (st : DMY) :
  1 <= month st <= 12 ->
  match addDays inc st with
  | Ok st' => (inc = None /\ st' = st) \/
              (exists n, inc = Some (Int n) /\ Z.abs n <= MAX_SAFE_INTEGER /\ validDMY st')
  | Throw e => (e = NonIntegerIncrement Days /\
                exists n, inc = Some n /\ isSafeInteger n = None) \/
               (exists y, e = InvalidYear y /\ (y < 1 \/ 9999 < y))
  | OutOfFuel => False
  end.
Proof.
  intros Hm. unfold addDays. destruct inc as [n |]; [| left; auto].
  destruct (isSafeInteger n) as [z |] eqn:Hs; [| left; eauto].
  apply isSafeInteger_Some in Hs as [-> Hz]. cbv zeta.
  match goal with |- context [backLoop loopFuel ?s] => set (st0 := s) end.
  assert (Hm0 : 1 <= month st0 <= 12) by exact Hm.
  destruct (backLoop loopFuel st0) as [st1 | e |] eqn:Hb; cbn [bind].
  - pose proof (backLoop_Ok _ _ _ Hb Hm0) as (Hm1 & Hd1 & _).
    destruct (forwardLoop loopFuel st1) as [st2 | e |] eqn:Hf.
    + right. exists z. repeat split; try assumption.
      exact (proj1 (forwardLoop_Ok _ _ _ Hf Hm1 Hd1)).
    + right. exact (forwardLoop_Throw _ _ _ Hf Hm1).
    + revert Hf. apply forwardLoop_terminates; [exact Hm1 | |].
      * destruct loopFuel_S as (f & -> & _). lia.
      * destruct loopFuel_S as (f & -> & Hf). unfold monthIndex. lia.
  - right. exact (backLoop_Throw _ _ _ Hb Hm0).
  - revert Hb. apply backLoop_terminates; [exact Hm0 | |].
    + destruct loopFuel_S as (f & -> & _). lia.
    + destruct loopFuel_S as (f & -> & Hf). unfold monthIndex. lia.
Qed.

Lemma addMonths_outcome (b : bool) (inc : option number) (st : DMY) :
  1 <= month st <= 12 ->
  match addMonths b inc st with
  | Ok st' => (inc = None /\ st' = st) \/
              (exists n maxDay,
                  inc = Some (Int n) /\ Z.abs n <= MAX_SAFE_INTEGER /\
                  getMaxDayInMonth (month st') (year st') = Ok maxDay /\
                  day st' = if b then maxDay else Z.min (day st) maxDay)
  | Throw e => (e = NonIntegerIncrement Months /\
                exists n, inc = Some n /\ isSafeInteger n = None) \/
               (exists y, e = InvalidYear y /\ (y < 1 \/ 9999 < y))
  | OutOfFuel => False
  end.
Proof.
  intros Hm. destruct inc as [n |]; [| left; auto].
  unfold addMonths.
  destruct (isSafeInteger n) as [z |] eqn:Hs; [| left; eauto].
  apply isSafeInteger_Some in Hs as [-> Hz]. cbv zeta.
  pose proof (month_landing_month st z Hm Hz) as (L1 & L3). cbv zeta in L1, L3.
  match goal with |- context [getMaxDayInMonth ?m ?y] =>
    pose proof (getMaxDayInMonth_not_OutOfFuel m y);
    destruct (getMaxDayInMonth m y) as [mx | e' |] eqn:E end;
    cbn [bind]; [| | congruence].
  - right. exists z, mx. cbn [year month day]. rewrite L3. auto.
  - right.
    apply getMaxDayInMonth_Throw in E as [(_ & Hbad) | (-> & _ & Hbad)]; [lia |].
    eexists. split; [reflexivity | exact Hbad].
Qed.

Lemma addYears_outcome (inc : option number) (st : DMY) :
  match addYears inc st with
  | Ok st' => month st' = month st /\ day st' = day st /\
              ((inc = None /\ st' = st) \/
               (exists n, inc = Some (Int n) /\ Z.abs n <= MAX_SAFE_INTEGER /\
                          year st' = fl (year st + n)))
  | Throw e => e = NonIntegerIncrement Years /\
               exists n, inc = Some n /\ isSafeInteger n = None
  | OutOfFuel => False
  end.
Proof.
  unfold addYears. destruct inc as [n |]; [| auto].
  destruct (isSafeInteger n) as [z |] eqn:Hs; [| eauto].
  apply isSafeInteger_Some in Hs as [-> Hz]. cbn [year month day].
  repeat split. right. exists z. auto.
Qed.

(** *** The spec's normalization of the month *)

Lemma specWhileBelow_spec (fuel : nat) :
  forall m y, 1 - m <= Z.of_nat fuel ->
    let '(m', y') := specWhileBelow fuel m y in
    12 * y' + m' = 12 * y + m /\ 1 <= m' /\ (m < 1 -> m' <= 12) /\ (1 <= m -> m' = m).
Proof.
  induction fuel as [| f IH]; intros m y Hf; cbn [specWhileBelow].
  - destruct (Z.ltb_spec m 1); lia.
  - destruct (Z.ltb_spec m 1) as [Hlt | Hge]; [| lia].
    specialize (IH (m + 12) (y - 1)).
    destruct (specWhileBelow f (m + 12) (y - 1)) as [m' y']. lia.
Qed.

Lemma specWhileAbove_spec (fuel : nat) :
  forall m y, 1 <= m -> m <= Z.of_nat fuel ->
    let '(m', y') := specWhileAbove fuel m y in
    12 * y' + m' = 12 * y + m /\ 1 <= m' <= 12.
Proof.
  induction fuel as [| f IH]; intros m y Hm Hf; cbn [specWhileAbove].
  - lia.
  - rewrite Z.gtb_ltb. destruct (Z.ltb_spec 12 m) as [Hgt | Hle]; [| lia].
    specialize (IH (m - 12) (y + 1)).
    destruct (specWhileAbove f (m - 12) (y + 1)) as [m' y']. lia.
Qed.

Lemma specNormalizeMonth_range (m y : Z) :
  let '(m', y') := specNormalizeMonth m y in
  12 * y' + m' = 12 * y + m /\ 1 <= m' <= 12.
Proof.
  unfold specNormalizeMonth.
  pose proof (specWhileBelow_spec (Z.to_nat (1 - m)) m y) as H1.
  destruct (specWhileBelow (Z.to_nat (1 - m)) m y) as [m1 y1].
  assert (H1' : 12 * y1 + m1 = 12 * y + m /\ 1 <= m1)
    by (destruct H1 as (? & ? & _); [lia | auto]).
  pose proof (specWhileAbove_spec (Z.to_nat m1) m1 y1) as H2.
  destruct (specWhileAbove (Z.to_nat m1) m1 y1) as [m2 y2].
  assert (12 * y2 + m2 = 12 * y1 + m1 /\ 1 <= m2 <= 12) by (apply H2; lia).
  lia.
Qed.

(** The month step of the code is the month step of the specification. *)
Lemma addMonths_specMonthStep (b : bool) (n : Z) (st : DMY) :
  1 <= month st <= 12 -> 1 <= year st <= 9999 -> Z.abs n <= MAX_SAFE_INTEGER ->
  addMonths b (Some (Int n)) st = specMonthStep b n st.
Proof.
  intros Hm Hy Hn. unfold addMonths, specMonthStep.
  assert (Hs : isSafeInteger (Int n) = Some n) by (apply isSafeInteger_Some; auto).
  rewrite Hs. cbv zeta.
  pose proof (month_landing st n Hm) as L. cbv zeta in L.
  destruct L as (L1 & L2 & L3);
    [change (2 ^ 53 - 2 ^ 52) with 4503599627370496; lia | exact Hn |].
  pose proof (specNormalizeMonth_range
                (month st + (n - n / 12 * 12)) (year st + n / 12)) as S.
  destruct (specNormalizeMonth (month st + (n - n / 12 * 12)) (year st + n / 12))
    as [m2 y2].
  match goal with |- context [checkMonthRollover ?s] =>
    set (land := checkMonthRollover s) in * end.
  unfold monthIndex in L2.
  assert (Em : month land = m2) by lia.
  assert (Ey : year land = y2) by lia.
  rewrite Em, Ey, L3. reflexivity.
Qed.

End Engine.

(** ** [addDate] *)

Section AddDate.

Lemma addDate_unfold (date : string) (inc : Increment) (st : DMY) (maxDay : Z) :
  _toDMY date = Ok st ->
  getMaxDayInMonth (month st) (year st) = Ok maxDay ->
  addDate date inc =
  (st1 <- addYears (years inc) st ;;
   st2 <- addMonths (day st =? maxDay) (months inc) st1 ;;
   st3 <- addDays (days inc) st2 ;;
   Ok (buildIsoDateString (day st3) (month st3) (year st3))).
Proof. intros H E. unfold addDate. rewrite H. cbn [bind]. rewrite E. reflexivity. Qed.

Lemma isValidIsoDateString_true (s : string) :
  isValidIsoDateString (IsString s) = Ok true <->
  exists st, _toDMY s = Ok st /\ validDMY st.
Proof.
  unfold isValidIsoDateString, _toDMY, validDMY.
  destruct (matchIsoDate s) as [[[yyyy mm] dd] |]; split.
  - intros H. eexists. split; [reflexivity | exact H].
  - intros (st & H & V). injection H as <-. exact V.
  - discriminate.
  - intros (st & H & _). discriminate H.
Qed.

(** A calendar date is written as a string that reads back as it and that
    the validator accepts. *)
Lemma build_valid (st : DMY) :
  validDMY st ->
  _toDMY (buildIsoDateString (day st) (month st) (year st)) = Ok st /\
  isValidIsoDateString (IsString (buildIsoDateString (day st) (month st) (year st)))
  = Ok true.
Proof.
  intros V. pose proof (validDMY_bounds _ V) as (Hy & Hm & Hd & _).
  assert (H : _toDMY (buildIsoDateString (day st) (month st) (year st)) = Ok st).
  { rewrite toDMY_build by lia. destruct st; reflexivity. }
  split; [exact H |]. apply isValidIsoDateString_true. eauto.
Qed.

Lemma withDay_same (st : DMY) : withDay st (day st) = st.
Proof. destruct st; reflexivity. Qed.

Lemma loops_on_valid (st : DMY) :
  validDMY st ->
  backLoop loopFuel st = Ok st /\ forwardLoop loopFuel st = Ok st.
Proof.
  intros V. pose proof (validDMY_bounds _ V) as (_ & Hm & Hd & _).
  apply isValidDate_true in V as (mx & E & B).
  rewrite backLoop_unfold, forwardLoop_unfold by exact Hm.
  rewrite E. cbn [bind].
  destruct (Z.ltb_spec (day st) 1); [lia |].
  destruct (Z.leb_spec (day st) mx); [auto | lia].
Qed.

(** The day step undone by the opposite day step. *)
Lemma addDays_round_trip (st st' : DMY) (n : Z) :
  validDMY st ->
  addDays (Some (Int n)) st = Ok st' ->
  addDays (Some (Int (- n))) st' = Ok st.
Proof.
  intros V H.
  pose proof (validDMY_bounds _ V) as (Hy & Hm & Hd & Hi).
  pose proof (loops_on_valid _ V) as (Lb & Lf).
  pose proof V as V0. apply isValidDate_true in V0 as (mx & E & B).
  unfold addDays in H |- *.
  destruct (isSafeInteger (Int n)) as [z |] eqn:Hs; [| discriminate H].
  apply isSafeInteger_Some in Hs as [Hz Hn]. injection Hz as <-.
  assert (Hs' : isSafeInteger (Int (- n)) = Some (- n)).
  { apply isSafeInteger_Some. split; [reflexivity | lia]. }
  rewrite Hs'. cbv zeta in H |- *.
  change {| year := year st; month := month st; day := jsadd (day st) n |}
    with (withDay st (fl (day st + n))) in H.
  change {| year := year st'; month := month st'; day := jsadd (day st') (- n) |}
    with (withDay st' (fl (day st' + - n))).
  set (sta := withDay st (fl (day st + n))) in *.
  assert (Hma : 1 <= month sta <= 12) by exact Hm.
  apply bind_Ok in H as (stb & Hb & Hf).
  pose proof (backLoop_Ok _ _ _ Hb Hma) as (Hmb & Hdb & Hsame & Hmoved).
  pose proof (forwardLoop_Ok _ _ _ Hf Hmb Hdb) as (V' & Ryb & Bf).
  pose proof (validDMY_bounds _ V') as (Hy' & Hm' & Hd' & Hi').
  rewrite MAX_SAFE_INTEGER_val in Hn.
  destruct (Z_lt_le_dec (day sta) 1) as [Hlt | Hge].
  - (* the walk went back *)
    destruct (Hmoved Hlt) as (Vb & Bb).
    pose proof (validDMY_bounds _ Vb) as (_ & _ & Hdb' & Hib).
    pose proof (loops_on_valid _ Vb) as (_ & Lfb).
    rewrite Lfb in Hf. injection Hf as <-.
    assert (Hidx : monthIndex sta = monthIndex st) by reflexivity.
    assert (Hex : fl (day st + n) = day st + n).
    { apply fl_bounded_inv. change (fl (day st + n)) with (day sta).
      rewrite two53. lia. }
    assert (Hda : day sta = day st + n) by exact Hex.
    rewrite (fl_exact (day stb + - n)) by (rewrite two53; lia).
    replace (day stb + - n) with (day st + (day stb - day sta)) by lia.
    rewrite (backLoop_unfold (withDay stb _)) by exact Hmb.
    cbn [withDay day].
    destruct (Z.ltb_spec (day st + (day stb - day sta)) 1); [lia |].
    cbn [bind].
    change {| year := year stb; month := month stb;
              day := day st + (day stb - day sta) |}
      with (withDay stb (day st + (day stb - day sta))).
    rewrite (forward_over_back _ _ _ (day st) Hb Hma)
      by (rewrite ?two53; lia).
    replace (withDay sta (day st)) with st by (destruct st; reflexivity).
    exact Lf.
  - (* the walk went forward, or stayed *)
    rewrite (Hsame Hge) in *. clear Hsame Hmoved Hb.
    assert (Hidx : monthIndex sta = monthIndex st) by reflexivity.
    assert (Hex : fl (day st + n) = day st + n).
    { apply fl_bounded_inv. change (fl (day st + n)) with (day sta).
      rewrite two53. lia. }
    assert (Hda : day sta = day st + n) by exact Hex.
    rewrite (fl_exact (day st' + - n)) by (rewrite two53; lia).
    replace (day st' + - n) with (day st - (day sta - day st')) by lia.
    rewrite (back_over_forward _ _ _ (day st) Hf Hma Hge).
    + replace (withDay sta (day st)) with st by (destruct st; reflexivity).
      rewrite Lb. cbn [bind]. exact Lf.
    + intros mx' E'. change (getMaxDayInMonth (month st) (year st) = Ok mx') in E'.
      rewrite E in E'. injection E' as <-. lia.
    + rewrite two53. lia.
Qed.

End AddDate.

(** * The claims of the specification *)

(** C1, at the input where it fails.  [addDate('2024-02-29', {years: 1})]
    returns ['2025-02-29']: the day 29 of the returned triple exceeds
    [getMaxDayInMonth(2, 2025) = 28], and the library's own validator
    rejects the string.  The months step clamps the day and the year step
    does not. *)
Theorem addDate_years_only_leap_day :
  isValidIsoDateString (IsString "2024-02-29") = Ok true /\
  addDate "2024-02-29" (yearsOnly 1) = Ok "2025-02-29" /\
  toDMY "2025-02-29" = Ok {| year := 2025; month := 2; day := 29 |} /\
  getMaxDayInMonth 2 2025 = Ok 28 /\
  isValidIsoDateString (IsString "2025-02-29") = Ok false /\
  addDate "2024-02-29" (monthsOnly 12) = Ok "2025-02-28".
Proof. repeat split; vm_compute; reflexivity. Qed.

(** The invariant of C1 where the code keeps it: with a months or a days
    field present, what [addDate] returns for a valid date is a valid
    date again, year included. *)
Lemma addDate_valid_output (s s' : string) (inc : Increment) :
  isValidIsoDateString (IsString s) = Ok true ->
  months inc <> None \/ days inc <> None ->
  addDate s inc = Ok s' ->
  isValidIsoDateString (IsString s') = Ok true.
Proof.
  intros Hv Hpresent H.
  apply isValidIsoDateString_true in Hv as (st & Hdec & V).
  pose proof (validDMY_bounds _ V) as (Hy & Hm & Hd & _).
  pose proof V as V0. apply isValidDate_true in V0 as (mx & E & B).
  rewrite (addDate_unfold _ _ _ _ Hdec E) in H.
  apply bind_Ok in H as (st1 & H1 & H). apply bind_Ok in H as (st2 & H2 & H).
  apply bind_Ok in H as (st3 & H3 & H). injection H as <-.
  pose proof (addYears_outcome (years inc) st) as O1. rewrite H1 in O1.
  destruct O1 as (Hm1 & Hd1 & _).
  assert (Hm1' : 1 <= month st1 <= 12) by lia.
  pose proof (addMonths_outcome (day st =? mx) (months inc) st1 Hm1') as O2.
  rewrite H2 in O2.
  assert (Hm2 : 1 <= month st2 <= 12).
  { destruct O2 as [[_ ->] | (n & mx2 & _ & _ & E2 & _)]; [exact Hm1' |].
    apply getMaxDayInMonth_Ok in E2. lia. }
  pose proof (addDays_outcome (days inc) st2 Hm2) as O3. rewrite H3 in O3.
  enough (V3 : validDMY st3) by exact (proj2 (build_valid _ V3)).
  destruct O3 as [[Hnone ->] | (n & _ & _ & V3)]; [| exact V3].
  destruct O2 as [[Hnone2 _] | (n & mx2 & _ & _ & E2 & Hday)].
  - destruct Hpresent; congruence.
  - pose proof (getMaxDayInMonth_Ok _ _ _ E2) as (_ & _ & Rx).
    apply (validDMY_intro st2 mx2 E2). destruct (day st =? mx); lia.
Qed.

(** C2 refuted: [addDate] raises the errors of the month-length lookup,
    for a string that matches the pattern and for an integer increment. *)
Lemma addDate_raises_invalid_month_and_year :
  matchIsoDate "2023-13-01" <> None /\
  addDate "2023-13-01" noIncrement = Throw (InvalidMonth 13) /\
  isValidIsoDateString (IsString "9999-12-31") = Ok true /\
  addDate "9999-12-31" (daysOnly 1) = Throw (InvalidYear 10000).
Proof.
  split; [vm_compute; discriminate |]. repeat split; vm_compute; reflexivity.
Qed.

(** C2 as the code has it.  [addDate] returns a string or throws one of
    its four errors, and always comes to an end: "Invalid date" exactly
    for a string that does not match the pattern; "Invalid month number"
    exactly for a matching string whose month field is outside 1..12;
    "Invalid year" only with a year outside 1..9999; "increment must be an
    integer value" only for a field that is present and no safe integer. *)
Theorem addDate_outcomes (date : string) (inc : Increment) :
  addDate date inc <> OutOfFuel /\
  (forall s, addDate date inc = Throw (InvalidDate s) <->
             matchIsoDate date = None /\ s = date) /\
  (forall m, addDate date inc = Throw (InvalidMonth m) <->
             exists st, _toDMY date = Ok st /\ m = month st /\ (m < 1 \/ 12 < m)) /\
  (forall y, addDate date inc = Throw (InvalidYear y) -> y < 1 \/ 9999 < y) /\
  (forall f, addDate date inc = Throw (NonIntegerIncrement f) ->
             exists n, incrementField f inc = Some n /\ isSafeInteger n = None).
Proof.
  unfold addDate, _toDMY.
  destruct (matchIsoDate date) as [[[yyyy mm] dd] |] eqn:Hmatch; cbn [bind].
  2:{ split; [discriminate |]. split; [| split; [| split]].
      - intros s. split.
        + intros H. injection H as <-. auto.
        + intros [_ ->]. reflexivity.
      - intros m. split; [discriminate | intros (st & H & _); discriminate H].
      - discriminate.
      - discriminate. }
  set (st := {| year := Number yyyy; month := Number mm; day := Number dd |}).
  destruct (getMaxDayInMonth (month st) (year st)) as [mx | e |] eqn:E; cbn [bind].
  3:{ exfalso. exact (getMaxDayInMonth_not_OutOfFuel _ _ E). }
  2:{ apply getMaxDayInMonth_Throw in E as [(-> & Hbad) | (-> & Hm & Hbad)].
      - split; [discriminate |]. split; [| split; [| split]].
        + intros s. split; [discriminate | intros [H _]; discriminate H].
        + intros m. split.
          * intros H. injection H as <-. exists st. auto.
          * intros (st' & H & -> & _). injection H as <-. reflexivity.
        + discriminate.
        + discriminate.
      - split; [discriminate |]. split; [| split; [| split]].
        + intros s. split; [discriminate | intros [H _]; discriminate H].
        + intros m. split; [discriminate |].
          intros (st' & H & -> & Hb). injection H as <-. lia.
        + intros y H. injection H as <-. exact Hbad.
        + discriminate. }
  pose proof (getMaxDayInMonth_Ok _ _ _ E) as (Hm & Hy & _).
  assert (Hnomonth : forall m, ~ exists st', Ok st = Ok st' /\
                       m = month st' /\ (m < 1 \/ 12 < m)).
  { intros m (st' & H & -> & Hb). injection H as <-. lia. }
  pose proof (addYears_outcome (years inc) st) as O1.
  destruct (addYears (years inc) st) as [st1 | e |]; cbn [bind]; [| | contradiction].
  2:{ destruct O1 as [-> O1]. split; [discriminate |]. split; [| split; [| split]].
      - intros s. split; [discriminate | intros [H _]; discriminate H].
      - intros m. split; [discriminate | intros H; elim (Hnomonth m H)].
      - discriminate.
      - intros f H. injection H as <-. exact O1. }
  destruct O1 as (Hm1 & _).
  assert (Hm1' : 1 <= month st1 <= 12) by lia.
  pose proof (addMonths_outcome (day st =? mx) (months inc) st1 Hm1') as O2.
  destruct (addMonths (day st =? mx) (months inc) st1) as [st2 | e |];
    cbn [bind]; [| | contradiction].
  2:{ split; [discriminate |]. split; [| split; [| split]].
      - intros s. split; [| intros [H _]; discriminate H].
        intros H. injection H as ->.
        destruct O2 as [[O2 _] | (y & O2 & _)]; discriminate O2.
      - intros m. split; [| intros H; elim (Hnomonth m H)].
        intros H. injection H as ->.
        destruct O2 as [[O2 _] | (y & O2 & _)]; discriminate O2.
      - intros y H. injection H as ->.
        destruct O2 as [[O2 _] | (y' & O2 & Hb)]; [discriminate O2 |].
        injection O2 as ->. exact Hb.
      - intros f H. injection H as ->.
        destruct O2 as [[O2 Hn] | (y & O2 & _)]; [| discriminate O2].
        injection O2 as ->. exact Hn. }
  assert (Hm2 : 1 <= month st2 <= 12).
  { destruct O2 as [[_ ->] | (n & mx2 & _ & _ & E2 & _)]; [exact Hm1' |].
    apply getMaxDayInMonth_Ok in E2. lia. }
  pose proof (addDays_outcome (days inc) st2 Hm2) as O3.
  destruct (addDays (days inc) st2) as [st3 | e |]; cbn [bind]; [| | contradiction].
  - split; [discriminate |]. split; [| split; [| split]].
    + intros s. split; [discriminate | intros [H _]; discriminate H].
    + intros m. split; [discriminate | intros H; elim (Hnomonth m H)].
    + discriminate.
    + discriminate.
  - split; [discriminate |]. split; [| split; [| split]].
    + intros s. split; [| intros [H _]; discriminate H].
      intros H. injection H as ->.
      destruct O3 as [[O3 _] | (y & O3 & _)]; discriminate O3.
    + intros m. split; [| intros H; elim (Hnomonth m H)].
      intros H. injection H as ->.
      destruct O3 as [[O3 _] | (y & O3 & _)]; discriminate O3.
    + intros y H. injection H as ->.
      destruct O3 as [[O3 _] | (y' & O3 & Hb)]; [discriminate O3 |].
      injection O3 as ->. exact Hb.
    + intros f H. injection H as ->.
      destruct O3 as [[O3 Hn] | (y & O3 & _)]; [| discriminate O3].
      injection O3 as ->. exact Hn.
Qed.

(** The month field 13 of ['2023-13-01'] is what [addDate] reports. *)
Lemma addDate_outcomes_witness :
  addDate "2023-13-01" noIncrement = Throw (InvalidMonth 13) /\
  exists st, _toDMY "2023-13-01" = Ok st /\ 13 = month st /\ (13 < 1 \/ 12 < 13).
Proof.
  assert (H : addDate "2023-13-01" noIncrement = Throw (InvalidMonth 13))
    by (vm_compute; reflexivity).
  split; [exact H |].
  exact (proj1 (proj1 (proj2 (proj2 (addDate_outcomes "2023-13-01" noIncrement))) 13) H).
Defined.

(** C3 refuted: the call of the README does not return ['2026-03-02']. *)
Lemma addDate_readme_example_value :
  addDate "2023-02-14"
    {| days := Some (Int 1); months := Some (Int 2); years := Some (Int 3) |}
  <> Ok "2026-03-02".
Proof. vm_compute. discriminate. Qed.

(** C3 as the code has it: ['2023-02-14'] with [{days: 1, months: 2,
    years: 3}] gives ['2026-04-15'], the years applied first, then the
    months, then the days; the month step of the specification agrees on
    the middle step. *)
Theorem addDate_order_of_application :
  addDate "2023-02-14"
    {| days := Some (Int 1); months := Some (Int 2); years := Some (Int 3) |}
  = Ok "2026-04-15" /\
  addDate "2023-02-14" (yearsOnly 3) = Ok "2026-02-14" /\
  addDate "2026-02-14" (monthsOnly 2) = Ok "2026-04-14" /\
  addDate "2026-04-14" (daysOnly 1) = Ok "2026-04-15" /\
  specShiftMonths "2026-02-14" 2 = Ok "2026-04-14".
Proof. repeat split; vm_compute; reflexivity. Qed.

(** C4: the day after a months increment.  For a valid date and a safe
    integer [n], whatever [addDate] returns has its month [n] months after
    the start, and its day is the last of that month when the start was
    the last day of its month, and otherwise the starting day clamped to
    the length of that month; [addDate] does return when the landing year
    is within 1..9999.  So ['2023-01-31'] plus one month is
    ['2023-02-28']. *)
Theorem addDate_months_day_rule :
  (forall (s : string) (st : DMY) (n : Z),
      toDMY s = Ok st -> validDMY st -> Z.abs n <= MAX_SAFE_INTEGER ->
      exists startMax,
        getMaxDayInMonth (month st) (year st) = Ok startMax /\
        (forall s', addDate s (monthsOnly n) = Ok s' ->
           exists st' landMax,
             toDMY s' = Ok st' /\
             1 <= month st' <= 12 /\ monthIndex st' = monthIndex st + n /\
             getMaxDayInMonth (month st') (year st') = Ok landMax /\
             day st' = if day st =? startMax then landMax
                       else Z.min (day st) landMax) /\
        (13 <= monthIndex st + n <= 120000 ->
         exists s', addDate s (monthsOnly n) = Ok s')) /\
  addDate "2023-01-31" (monthsOnly 1) = Ok "2023-02-28".
Proof.
  split; [| vm_compute; reflexivity].
  intros s st n Hdec V Hn. unfold toDMY in *.
  pose proof (validDMY_bounds _ V) as (Hy & Hm & Hd & _).
  pose proof V as V0. apply isValidDate_true in V0 as (mx & E & B).
  exists mx. split; [exact E |].
  assert (Hy' : Z.abs (year st) < 2 ^ 53 - 2 ^ 52)
    by (change (2 ^ 53 - 2 ^ 52) with 4503599627370496; lia).
  rewrite (addDate_unfold _ _ _ _ Hdec E).
  cbn [monthsOnly years months days addYears addDays bind].
  split.
  - intros s' H. apply bind_Ok in H as (st' & H & Hs'). injection Hs' as <-.
    destruct (addMonths_Some_Ok _ _ _ _ H Hm Hy') as (_ & mx' & E' & Hidx & Hday).
    pose proof (getMaxDayInMonth_Ok _ _ _ E') as (Hm' & _ & Rx).
    assert (V' : validDMY st').
    { apply (validDMY_intro st' mx' E'). destruct (day st =? mx); lia. }
    exists st', mx'. split; [exact (proj1 (build_valid _ V')) |]. auto.
  - intros Hl.
    destruct (addMonths_Some_landing (day st =? mx) n st Hm Hy Hn Hl) as (st' & ->).
    cbn [bind]. eexists. reflexivity.
Qed.

(** 31 January 2023 plus 13 months: the last day of February 2024. *)
Lemma addDate_months_day_rule_witness :
  exists st' landMax,
    toDMY "2024-02-29" = Ok st' /\
    1 <= month st' <= 12 /\
    monthIndex st' = monthIndex {| year := 2023; month := 1; day := 31 |} + 13 /\
    getMaxDayInMonth (month st') (year st') = Ok landMax /\
    day st' = if 31 =? 31 then landMax else Z.min 31 landMax.
Proof.
  destruct (proj1 addDate_months_day_rule "2023-01-31"
              {| year := 2023; month := 1; day := 31 |} 13)
    as (startMax & E & Hrule & _).
  - vm_compute. reflexivity.
  - vm_compute. reflexivity.
  - vm_compute. discriminate.
  - vm_compute in E. injection E as <-.
    apply Hrule. vm_compute. reflexivity.
Defined.

(** C5: on a valid date, [addDate], which truncates [months / 12] toward
    zero and rolls the month over once, and the month step of the
    specification, which takes the floor and normalizes with two loops,
    agree.  When the landing year stays within 1..9999 both return the
    same string, also for a negative number of months that is no multiple
    of 12; for every safe integer they give the same result, the same
    error included. *)
Theorem addDate_months_refines_spec (s : string) (st : DMY) (n : Z) :
  toDMY s = Ok st -> validDMY st ->
  (13 <= monthIndex st + n <= 120000 ->
   exists s', addDate s (monthsOnly n) = Ok s' /\ specShiftMonths s n = Ok s') /\
  (Z.abs n <= MAX_SAFE_INTEGER -> addDate s (monthsOnly n) = specShiftMonths s n).
Proof.
  intros Hdec V. unfold toDMY in Hdec.
  pose proof (validDMY_bounds _ V) as (Hy & Hm & _ & Hi).
  apply isValidDate_true in V as (mx & E & _).
  assert (Heq : Z.abs n <= MAX_SAFE_INTEGER ->
                addDate s (monthsOnly n) = specShiftMonths s n).
  { intros Hn. rewrite (addDate_unfold _ _ _ _ Hdec E). unfold specShiftMonths.
    rewrite Hdec. cbn [bind]. rewrite E.
    cbn [monthsOnly years months days addYears addDays bind].
    rewrite (addMonths_specMonthStep _ _ _ Hm Hy Hn).
    destruct (specMonthStep (day st =? mx) n st); reflexivity. }
  split; [| exact Heq].
  intros Hl.
  assert (Hn : Z.abs n <= MAX_SAFE_INTEGER) by (rewrite MAX_SAFE_INTEGER_val; lia).
  rewrite <- (Heq Hn). rewrite (addDate_unfold _ _ _ _ Hdec E).
  cbn [monthsOnly years months days addYears addDays bind].
  destruct (addMonths_Some_landing (day st =? mx) n st Hm Hy Hn Hl) as (st' & ->).
  cbn [bind]. eexists. split; reflexivity.
Qed.

(** 25 months back: the quotient by 12 truncates to -2 and floors to -3,
    and both month steps land on December 2020. *)
Lemma addDate_months_refines_spec_witness :
  Z.quot (-25) 12 = -2 /\ (-25) / 12 = -3 /\
  exists s', addDate "2023-01-31" (monthsOnly (-25)) = Ok s' /\
             specShiftMonths "2023-01-31" (-25) = Ok s'.
Proof.
  split; [reflexivity |]. split; [reflexivity |].
  apply (proj1 (addDate_months_refines_spec "2023-01-31"
                  {| year := 2023; month := 1; day := 31 |} (-25)
                  ltac:(vm_compute; reflexivity) ltac:(vm_compute; reflexivity))).
  vm_compute. split; discriminate.
Defined.

(** C6: the codec round trip.  A valid triple written by [fromDMY] is read
    back by [toDMY], and a string that matches the pattern is written
    back by [fromDMY] from what [toDMY] read. *)
Theorem codec_round_trip :
  (forall d : DMY, validDMY d -> toDMY (fromDMY d) = Ok d) /\
  (forall s : string, matchIsoDate s <> None ->
                      exists d, toDMY s = Ok d /\ fromDMY d = s).
Proof.
  split.
  - intros d V. exact (proj1 (build_valid d V)).
  - intros s Hmatch. unfold toDMY.
    destruct (_toDMY s) as [d | e |] eqn:H.
    + exists d. split; [reflexivity |]. exact (proj1 (build_toDMY _ _ H)).
    + unfold _toDMY in H.
      destruct (matchIsoDate s) as [[[yyyy mm] dd] |]; [discriminate H | congruence].
    + unfold _toDMY in H.
      destruct (matchIsoDate s) as [[[yyyy mm] dd] |]; discriminate H.
Qed.

(** 28 June 815, and a string of the pattern that is no date. *)
Lemma codec_round_trip_witness :
  toDMY (fromDMY {| year := 815; month := 6; day := 28 |})
  = Ok {| year := 815; month := 6; day := 28 |} /\
  exists d, toDMY "0000-99-00" = Ok d /\ fromDMY d = "0000-99-00".
Proof.
  split.
  - apply (proj1 codec_round_trip). vm_compute. reflexivity.
  - apply (proj2 codec_round_trip). vm_compute. discriminate.
Defined.

(** C7: adding [n] days and then [-n] days.  For a valid date [s], when
    [addDate s {days: n}] returns [s'] (no month of a year outside 1..9999
    was looked up on the way), [addDate s' {days: -n}] returns [s]. *)
Theorem addDate_days_round_trip (s s' : string) (n : Z) :
  isValidIsoDateString (IsString s) = Ok true ->
  addDate s (daysOnly n) = Ok s' ->
  addDate s' (daysOnly (- n)) = Ok s.
Proof.
  intros Hv H. apply isValidIsoDateString_true in Hv as (st & Hdec & V).
  pose proof (validDMY_bounds _ V) as (_ & Hm & _).
  pose proof V as V0. apply isValidDate_true in V0 as (mx & E & _).
  rewrite (addDate_unfold _ _ _ _ Hdec E) in H.
  cbn [daysOnly years months days addYears addMonths bind] in H.
  apply bind_Ok in H as (st' & Hdays & H). injection H as <-.
  pose proof (addDays_outcome (Some (Int n)) st Hm) as O. rewrite Hdays in O.
  destruct O as [[O _] | (n' & _ & _ & V')]; [discriminate O |].
  pose proof V' as V1. apply isValidDate_true in V1 as (mx' & E' & _).
  rewrite (addDate_unfold _ _ _ _ (proj1 (build_valid _ V')) E').
  cbn [daysOnly years months days addYears addMonths bind].
  rewrite (addDays_round_trip _ _ _ V Hdays). cbn [bind].
  f_equal. exact (proj1 (build_toDMY _ _ Hdec)).
Qed.

(** 86 days back across a year boundary, and forth again. *)
Lemma addDate_days_round_trip_witness :
  addDate "2023-02-14" (daysOnly (-86)) = Ok "2022-11-20" /\
  addDate "2022-11-20" (daysOnly (- -86)) = Ok "2023-02-14".
Proof.
  assert (H : addDate "2023-02-14" (daysOnly (-86)) = Ok "2022-11-20")
    by (vm_compute; reflexivity).
  split; [exact H |].
  apply (addDate_days_round_trip "2023-02-14" "2022-11-20" (-86)).
  - vm_compute. reflexivity.
  - exact H.
Defined.

(** When the days do not fit: the day step fails on the first month of a
    year outside 1..9999, and otherwise returns. *)
Lemma addDate_days_outcome (s : string) (n : Z) :
  isValidIsoDateString (IsString s) = Ok true ->
  Z.abs n <= MAX_SAFE_INTEGER ->
  (exists s', addDate s (daysOnly n) = Ok s') \/
  (exists y, addDate s (daysOnly n) = Throw (InvalidYear y) /\ (y < 1 \/ 9999 < y)).
Proof.
  intros Hv Hn. apply isValidIsoDateString_true in Hv as (st & Hdec & V).
  pose proof (validDMY_bounds _ V) as (_ & Hm & _).
  apply isValidDate_true in V as (mx & E & _).
  rewrite (addDate_unfold _ _ _ _ Hdec E).
  cbn [daysOnly years months days addYears addMonths bind].
  pose proof (addDays_outcome (Some (Int n)) st Hm) as O.
  destruct (addDays (Some (Int n)) st) as [st' | e |]; cbn [bind];
    [left; eauto | right | contradiction].
  destruct O as [(_ & n' & Hsome & Hnot) | (y & -> & Hb)]; [| eauto].
  injection Hsome as <-.
  assert (Hs : isSafeInteger (Int n) = Some n) by (apply isSafeInteger_Some; auto).
  congruence.
Qed.

(** C8: the validity predicates never throw.  [isValidDate] returns
    [false] for a year outside 1..9999, a month outside 1..12 or a day
    below 1; otherwise the month-length lookup it makes succeeds and it
    returns whether the day is at most that length.
    [isValidIsoDateString] returns a boolean for every value: [false] for
    what is no string and for a string that fails the pattern. *)
Theorem validity_predicates_never_throw :
  (forall day month year : Z,
      (exists b, isValidDate day month year = Ok b) /\
      (year < 1 \/ 9999 < year \/ month < 1 \/ 12 < month \/ day < 1 ->
       isValidDate day month year = Ok false) /\
      (1 <= year <= 9999 -> 1 <= month <= 12 -> 1 <= day ->
       exists maxDay, getMaxDayInMonth month year = Ok maxDay /\
                      isValidDate day month year = Ok (day <=? maxDay))) /\
  (forall value : unknown, exists b, isValidIsoDateString value = Ok b) /\
  isValidIsoDateString NotString = Ok false /\
  (forall s : string, matchIsoDate s = None ->
                      isValidIsoDateString (IsString s) = Ok false).
Proof.
  assert (Hdate : forall day month year : Z,
             (year < 1 \/ 9999 < year \/ month < 1 \/ 12 < month \/ day < 1 ->
              isValidDate day month year = Ok false) /\
             (1 <= year <= 9999 -> 1 <= month <= 12 -> 1 <= day ->
              exists maxDay, getMaxDayInMonth month year = Ok maxDay /\
                             isValidDate day month year = Ok (day <=? maxDay))).
  { intros d m y. unfold isValidDate, isValidDateIn, defaultYearRange.
    cbn [minYear maxYear]. split.
    - intros H. zbool; try reflexivity; lia.
    - intros Hy Hm Hd.
      destruct (getMaxDayInMonth_in_range m y Hm Hy) as (mx & E & B).
      exists mx. split; [exact E |]. rewrite E. cbn [bind].
      zbool; try reflexivity; lia. }
  assert (Htotal : forall day month year : Z,
             exists b, isValidDate day month year = Ok b).
  { intros d m y. destruct (Hdate d m y) as [Hout Hin].
    destruct (Z_lt_le_dec y 1); [eexists; apply Hout; lia |].
    destruct (Z_lt_le_dec 9999 y); [eexists; apply Hout; lia |].
    destruct (Z_lt_le_dec m 1); [eexists; apply Hout; lia |].
    destruct (Z_lt_le_dec 12 m); [eexists; apply Hout; lia |].
    destruct (Z_lt_le_dec d 1); [eexists; apply Hout; lia |].
    destruct Hin as (mx & _ & ->); [lia | lia | lia |]. eauto. }
  split; [| split; [| split]].
  - intros d m y. split; [apply Htotal | apply Hdate].
  - intros [s |]; cbn [isValidIsoDateString]; [| eauto].
    destruct (matchIsoDate s) as [[[yyyy mm] dd] |]; [apply Htotal | eauto].
  - reflexivity.
  - intros s H. cbn [isValidIsoDateString]. rewrite H. reflexivity.
Qed.

(** 29 February 2023, fields out of every range, a field one digit short. *)
Lemma validity_predicates_never_throw_witness :
  isValidDate 29 2 2023 = Ok false /\
  isValidDate 0 13 10000 = Ok false /\
  isValidIsoDateString (IsString "2023-2-14") = Ok false.
Proof.
  split; [| split].
  - destruct (proj2 (proj2 (proj1 validity_predicates_never_throw 29 2 2023)))
      as (maxDay & E & ->); [lia | lia | lia |].
    vm_compute in E. injection E as <-. reflexivity.
  - apply (proj1 (proj2 (proj1 validity_predicates_never_throw 0 13 10000))). lia.
  - apply (proj2 (proj2 (proj2 validity_predicates_never_throw))).
    vm_compute. reflexivity.
Defined.

(** ** The conversions from [Date] *)

Lemma calendarReading_may31st2013 : calendarReading may31st2013.
Proof. repeat split; vm_compute; reflexivity. Qed.

Lemma weekDay_range (d m y : Z) : 0 <= weekDay d m y <= 6.
Proof.
  unfold weekDay.
  pose proof (Z.mod_pos_bound (daysBeforeYear y + daysBeforeMonth m y + d) 7).
  lia.
Qed.

(** C9: [fromLocalDate] takes the day from [getDay], the weekday.  The
    string it returns reads back as the weekday (0..6), the month and the
    year of the local reading, and for 31 May 2013, a Friday, its day
    field is 5 and not the day of the month. *)
Theorem fromLocalDate_reads_weekday :
  (forall d : Date,
      fromLocalDate d =
      buildIsoDateString (getDay d) (jsadd (getMonth d) 1) (getFullYear d)) /\
  (forall d : Date,
      calendarReading d ->
      0 <= getDay d <= 6 /\
      toDMY (fromLocalDate d) =
      Ok {| year := getFullYear d; month := getMonth d + 1; day := getDay d |}) /\
  (exists d : Date,
      calendarReading d /\
      fromLocalDate d = "2013-05-05" /\
      exists st, toDMY (fromLocalDate d) = Ok st /\
                 day st = getDay d /\ day st <> getDate d).
Proof.
  split; [reflexivity |]. split.
  - intros d (V & Hw & _).
    pose proof (validDMY_bounds {| year := getFullYear d; month := getMonth d + 1;
                                   day := getDate d |} V) as (Hy & Hm & _).
    cbn [year month day] in Hy, Hm.
    pose proof (weekDay_range (getDate d) (getMonth d + 1) (getFullYear d)) as Hr.
    rewrite <- Hw in Hr. split; [exact Hr |].
    unfold toDMY, fromLocalDate. fl_simpl. apply toDMY_build; lia.
  - exists may31st2013. split; [exact calendarReading_may31st2013 |].
    split; [vm_compute; reflexivity |].
    eexists. split; [vm_compute; reflexivity |].
    split; [reflexivity | vm_compute; discriminate].
Qed.

(** Friday 31 May 2013 is written with the day field 5. *)
Lemma fromLocalDate_reads_weekday_witness :
  0 <= getDay may31st2013 <= 6 /\
  toDMY (fromLocalDate may31st2013) = Ok {| year := 2013; month := 5; day := 5 |}.
Proof.
  exact (proj1 (proj2 fromLocalDate_reads_weekday) may31st2013
           calendarReading_may31st2013).
Defined.

(** C10: [fromUTCDate] takes the day from [getUTCDay], the weekday, as
    [fromLocalDate] does from [getDay].  The string it returns reads back
    as the UTC weekday (0..6), month and year, and for 31 May 2013 its day
    field is 5 and not the UTC day of the month. *)
Theorem fromUTCDate_reads_weekday :
  (forall d : Date,
      fromUTCDate d =
      buildIsoDateString (getUTCDay d) (jsadd (getUTCMonth d) 1) (getUTCFullYear d)) /\
  (forall d : Date,
      calendarReading d ->
      0 <= getUTCDay d <= 6 /\
      toDMY (fromUTCDate d) =
      Ok {| year := getUTCFullYear d; month := getUTCMonth d + 1;
            day := getUTCDay d |}) /\
  (exists d : Date,
      calendarReading d /\
      fromUTCDate d = "2013-05-05" /\
      exists st, toDMY (fromUTCDate d) = Ok st /\
                 day st = getUTCDay d /\ day st <> getUTCDate d).
Proof.
  split; [reflexivity |]. split.
  - intros d (_ & _ & V & Hw).
    pose proof (validDMY_bounds {| year := getUTCFullYear d; month := getUTCMonth d + 1;
                                   day := getUTCDate d |} V) as (Hy & Hm & _).
    cbn [year month day] in Hy, Hm.
    pose proof (weekDay_range (getUTCDate d) (getUTCMonth d + 1) (getUTCFullYear d))
      as Hr.
    rewrite <- Hw in Hr. split; [exact Hr |].
    unfold toDMY, fromUTCDate. fl_simpl. apply toDMY_build; lia.
  - exists may31st2013. split; [exact calendarReading_may31st2013 |].
    split; [vm_compute; reflexivity |].
    eexists. split; [vm_compute; reflexivity |].
    split; [reflexivity | vm_compute; discriminate].
Qed.

(** Friday 31 May 2013, read in UTC, is written with the day field 5. *)
Lemma fromUTCDate_reads_weekday_witness :
  0 <= getUTCDay may31st2013 <= 6 /\
  toDMY (fromUTCDate may31st2013) = Ok {| year := 2013; month := 5; day := 5 |}.
Proof.
  exact (proj1 (proj2 fromUTCDate_reads_weekday) may31st2013
           calendarReading_may31st2013).
Defined.

(** * Further properties of the code *)

(** ** The count of days *)

Ltac month_cases m :=
  let H := fresh "Hc" in
  assert (H : m = 1 \/ m = 2 \/ m = 3 \/ m = 4 \/ m = 5 \/ m = 6 \/ m = 7 \/
              m = 8 \/ m = 9 \/ m = 10 \/ m = 11 \/ m = 12) by lia;
  repeat (destruct H as [-> | H]); try subst m.

Section DayCount.

Lemma isLeapYear_mod (y : Z) :
  isLeapYear y = true <-> y mod 4 = 0 /\ (y mod 100 <> 0 \/ y mod 400 = 0).
Proof.
  unfold isLeapYear.
  assert (R : forall k, 0 < k -> (Z.rem y k = 0 <-> y mod k = 0)).
  { intros k Hk. rewrite Z.rem_divide, Z.mod_divide by lia. reflexivity. }
  pose proof (R 4 ltac:(lia)). pose proof (R 100 ltac:(lia)).
  pose proof (R 400 ltac:(lia)).
  zbool; intuition (try discriminate; try lia).
Qed.

Lemma daysBeforeYear_succ (y : Z) :
  daysBeforeYear (y + 1) = daysBeforeYear y + if isLeapYear y then 366 else 365.
Proof.
  pose proof (isLeapYear_mod y) as L. unfold daysBeforeYear.
  replace (y + 1 - 1) with y by lia.
  destruct (isLeapYear y).
  - assert (H : y mod 4 = 0 /\ (y mod 100 <> 0 \/ y mod 400 = 0))
      by (apply L; reflexivity).
    clear L. Z.to_euclidean_division_equations. lia.
  - assert (H : ~ (y mod 4 = 0 /\ (y mod 100 <> 0 \/ y mod 400 = 0))).
    { intros H. apply L in H. discriminate H. }
    clear L. Z.to_euclidean_division_equations. lia.
Qed.

Lemma daysBeforeMonth_succ (m y maxDay : Z) :
  getMaxDayInMonth m y = Ok maxDay ->
  daysBeforeMonth (m + 1) y = daysBeforeMonth m y + maxDay.
Proof.
  intros E. pose proof (getMaxDayInMonth_Ok _ _ _ E) as (Hm & Hy & _).
  unfold getMaxDayInMonth in E. zbool; try lia. injection E as <-.
  unfold daysBeforeMonth, maxDateInMonth1to12.
  month_cases m; destruct (isLeapYear y); reflexivity.
Qed.

Lemma daysBeforeMonth_1 (y : Z) : daysBeforeMonth 1 y = 0.
Proof. reflexivity. Qed.

Lemma daysBeforeMonth_13 (y : Z) :
  daysBeforeMonth 13 y = if isLeapYear y then 366 else 365.
Proof.
  unfold daysBeforeMonth, maxDateInMonth1to12. destruct (isLeapYear y); reflexivity.
Qed.

Lemma daysBeforeMonth_mono (m m' y : Z) :
  1 <= m <= m' -> m' <= 13 -> daysBeforeMonth m y <= daysBeforeMonth m' y.
Proof.
  intros H H'.
  assert (Hm : 1 <= m <= 12 \/ m = 13) by lia.
  assert (Hm' : 1 <= m' <= 12 \/ m' = 13) by lia.
  unfold daysBeforeMonth, maxDateInMonth1to12.
  destruct Hm as [Hm | ->], Hm' as [Hm' | ->];
    [month_cases m; month_cases m' | month_cases m | month_cases m' | ];
    try lia; destruct (isLeapYear y); vm_compute; discriminate.
Qed.

Lemma daysBeforeYear_mono (a b : Z) : a <= b -> daysBeforeYear a <= daysBeforeYear b.
Proof.
  intros H. unfold daysBeforeYear. Z.to_euclidean_division_equations. lia.
Qed.

Lemma lastDayNumber_val : lastDayNumber = daysBeforeYear 10000.
Proof. reflexivity. Qed.

(** A calendar date lies within its month, and so within its year. *)
Lemma dayNumber_month_bounds (st : DMY) (maxDay : Z) :
  getMaxDayInMonth (month st) (year st) = Ok maxDay -> 1 <= day st <= maxDay ->
  daysBeforeYear (year st) + daysBeforeMonth (month st) (year st) < dayNumber st /\
  dayNumber st <=
  daysBeforeYear (year st) + daysBeforeMonth (month st + 1) (year st).
Proof.
  intros E B. rewrite (daysBeforeMonth_succ _ _ _ E). unfold dayNumber. lia.
Qed.

Lemma dayNumber_year_bounds (st : DMY) :
  validDMY st ->
  daysBeforeYear (year st) < dayNumber st <= daysBeforeYear (year st + 1).
Proof.
  intros V. pose proof (validDMY_bounds _ V) as (Hy & Hm & _).
  apply isValidDate_true in V as (mx & E & B).
  pose proof (dayNumber_month_bounds _ _ E B) as (L & U).
  pose proof (daysBeforeMonth_mono 1 (month st) (year st) ltac:(lia) ltac:(lia)) as M1.
  pose proof (daysBeforeMonth_mono (month st + 1) 13 (year st) ltac:(lia) ltac:(lia)) as M2.
  rewrite daysBeforeMonth_1 in M1. rewrite daysBeforeMonth_13 in M2.
  rewrite daysBeforeYear_succ. lia.
Qed.

Lemma dayNumber_range (st : DMY) :
  validDMY st -> 1 <= dayNumber st <= lastDayNumber.
Proof.
  intros V. pose proof (validDMY_bounds _ V) as (Hy & _).
  pose proof (dayNumber_year_bounds _ V) as (L & U).
  pose proof (daysBeforeYear_mono 1 (year st) ltac:(lia)) as M1.
  pose proof (daysBeforeYear_mono (year st + 1) 10000 ltac:(lia)) as M2.
  rewrite lastDayNumber_val. change (daysBeforeYear 1) with 0 in M1. lia.
Qed.

(** Two calendar dates with the same count are the same date. *)
Lemma dayNumber_inj (a b : DMY) :
  validDMY a -> validDMY b -> dayNumber a = dayNumber b -> a = b.
Proof.
  intros Va Vb Heq.
  pose proof (dayNumber_year_bounds _ Va) as (La & Ua).
  pose proof (dayNumber_year_bounds _ Vb) as (Lb & Ub).
  assert (Hy : year a = year b).
  { destruct (Z.lt_trichotomy (year a) (year b)) as [Hlt | [Heq' | Hgt]];
      [| exact Heq' |].
    - pose proof (daysBeforeYear_mono (year a + 1) (year b) ltac:(lia)). lia.
    - pose proof (daysBeforeYear_mono (year b + 1) (year a) ltac:(lia)). lia. }
  pose proof (validDMY_bounds _ Va) as (_ & Hma & _).
  pose proof (validDMY_bounds _ Vb) as (_ & Hmb & _).
  apply isValidDate_true in Va as (mxa & Ea & Ba).
  apply isValidDate_true in Vb as (mxb & Eb & Bb).
  pose proof (dayNumber_month_bounds _ _ Ea Ba) as (L1 & U1).
  pose proof (dayNumber_month_bounds _ _ Eb Bb) as (L2 & U2).
  rewrite Hy in *.
  assert (Hm : month a = month b).
  { destruct (Z.lt_trichotomy (month a) (month b)) as [Hlt | [Heq' | Hgt]];
      [| exact Heq' |].
    - pose proof (daysBeforeMonth_mono (month a + 1) (month b) (year b)
                    ltac:(lia) ltac:(lia)). lia.
    - pose proof (daysBeforeMonth_mono (month b + 1) (month a) (year b)
                    ltac:(lia) ltac:(lia)). lia. }
  apply DMY_eq; [exact Hy | exact Hm |].
  unfold dayNumber in Heq. rewrite Hy, Hm in Heq. lia.
Qed.

(** *** The loops keep the count *)

Lemma stepForward_dayNumber (maxDay : Z) (st : DMY) :
  getMaxDayInMonth (month st) (year st) = Ok maxDay ->
  Z.abs (day st - maxDay) < 2 ^ 53 ->
  dayNumber (stepForward maxDay st) = dayNumber st.
Proof.
  intros E Hd. pose proof (getMaxDayInMonth_Ok _ _ _ E) as (Hm & Hy & _).
  destruct (stepForward_spec maxDay st Hm) as (Hday & Hc);
    [change (2 ^ 52) with 4503599627370496; lia |].
  rewrite fl_exact in Hday by exact Hd.
  pose proof (daysBeforeMonth_succ _ _ _ E) as S.
  unfold dayNumber. rewrite Hday.
  destruct Hc as [(M & -> & ->) | (M & -> & ->)].
  - rewrite daysBeforeYear_succ, daysBeforeMonth_1.
    rewrite M in S. rewrite daysBeforeMonth_13 in S. rewrite M. lia.
  - lia.
Qed.

Lemma stepBack_dayNumber (st st' : DMY) :
  stepBack st = Ok st' -> 1 <= month st <= 12 ->
  - 2 ^ 53 < day st < 1 ->
  dayNumber st' = dayNumber st.
Proof.
  intros Hs Hm Hd. destruct (stepBack_Ok _ _ Hs Hm) as (mx & E & Hday & Hc).
  pose proof (getMaxDayInMonth_Ok _ _ _ E) as (_ & _ & Rx).
  rewrite fl_exact in Hday by (rewrite two53 in *; lia).
  pose proof (daysBeforeMonth_succ _ _ _ E) as S.
  unfold dayNumber. rewrite Hday.
  destruct Hc as [(M & M' & Y) | (M & M' & Y)].
  - replace (year st) with (year st' + 1) by lia.
    rewrite daysBeforeYear_succ, M, daysBeforeMonth_1.
    rewrite M' in S |- *. rewrite daysBeforeMonth_13 in S. lia.
  - rewrite Y in *. replace (month st) with (month st' + 1) by lia. lia.
Qed.

Lemma forwardLoop_dayNumber (f : nat) :
  forall st st',
    forwardLoop f st = Ok st' -> 1 <= month st <= 12 -> 1 <= day st ->
    dayNumber st' = dayNumber st.
Proof.
  induction f as [| f IH]; intros st st' H Hm Hd; [discriminate H |].
  pose proof (forwardLoop_Ok _ _ _ H Hm Hd) as (V & Ry & B).
  pose proof (validDMY_bounds _ V) as (_ & _ & Bd & Bi).
  rewrite forwardLoop_S in H. apply bind_Ok in H as (mx & E & H).
  pose proof (getMaxDayInMonth_Ok _ _ _ E) as (_ & _ & Rx).
  destruct (Z.leb_spec (day st) mx) as [Hle | Hgt].
  - injection H as <-. reflexivity.
  - assert (Hex : Z.abs (day st - mx) < 2 ^ 53).
    { rewrite two53. unfold monthIndex in *. lia. }
    destruct (stepForward_spec mx st Hm) as (Hday & Hc);
      [change (2 ^ 52) with 4503599627370496; lia |].
    rewrite fl_exact in Hday by exact Hex.
    rewrite (IH _ _ H) by lia.
    apply stepForward_dayNumber; assumption.
Qed.

Lemma backLoop_dayNumber (f : nat) :
  forall st st',
    backLoop f st = Ok st' -> 1 <= month st <= 12 ->
    dayNumber st' = dayNumber st.
Proof.
  induction f as [| f IH]; intros st st' H Hm.
  - cbn [backLoop] in H. destruct (day st <? 1); [discriminate H |].
    injection H as <-. reflexivity.
  - pose proof (backLoop_Ok _ _ _ H Hm) as (_ & _ & _ & Hmoved).
    rewrite backLoop_S in H. destruct (Z.ltb_spec (day st) 1) as [Hlt | Hge].
    + destruct (Hmoved Hlt) as (V & B).
      pose proof (validDMY_bounds _ V) as (_ & _ & Bd & Bi).
      apply bind_Ok in H as (st1 & Hs & H).
      destruct (stepBack_Ok _ _ Hs Hm) as (mx & E & _ & Hc).
      pose proof (getMaxDayInMonth_Ok _ _ _ E) as (Rm & Ry & _).
      rewrite (IH _ _ H Rm).
      apply stepBack_dayNumber; [exact Hs | exact Hm |].
      rewrite two53. unfold monthIndex in *. lia.
    + injection H as <-. reflexivity.
Qed.

(** *** Where the walks fail *)

Lemma daysBefore_nonneg (m y : Z) :
  1 <= m <= 12 -> 1 <= y -> 0 <= daysBeforeYear y /\ 0 <= daysBeforeMonth m y.
Proof.
  intros Hm Hy.
  pose proof (daysBeforeYear_mono 1 y Hy) as M1.
  pose proof (daysBeforeMonth_mono 1 m y ltac:(lia) ltac:(lia)) as M2.
  change (daysBeforeYear 1) with 0 in M1. rewrite daysBeforeMonth_1 in M2. lia.
Qed.

Lemma forwardLoop_Throw_dayNumber (f : nat) :
  forall st e,
    forwardLoop f st = Throw e -> 1 <= month st <= 12 ->
    1 <= year st <= 10000 -> 1 <= day st ->
    e = InvalidYear 10000 /\ lastDayNumber < dayNumber st.
Proof.
  induction f as [| f IH]; intros st e H Hm Hy Hd; [discriminate H |].
  pose proof (daysBefore_nonneg (month st) (year st) Hm ltac:(lia)) as (N1 & N2).
  rewrite forwardLoop_S in H.
  destruct (getMaxDayInMonth (month st) (year st)) as [mx | e' |] eqn:E;
    cbn [bind] in H; try discriminate H.
  - pose proof (getMaxDayInMonth_Ok _ _ _ E) as (_ & Ry & Rx).
    destruct (Z.leb_spec (day st) mx) as [Hle | Hgt]; [discriminate H |].
    destruct (stepForward_spec mx st Hm) as (Hday & Hc);
      [change (2 ^ 52) with 4503599627370496; lia |].
    assert (Hd1 : 1 <= day (stepForward mx st)).
    { rewrite Hday. apply fl_pos. lia. }
    destruct (IH _ _ H) as (He & Hlast); try lia.
    split; [exact He |].
    destruct (Z_lt_le_dec (day st - mx) (2 ^ 53)) as [Hs | Hl].
    + rewrite <- (stepForward_dayNumber mx st E); [exact Hlast |].
      rewrite two53 in *. lia.
    + unfold dayNumber, lastDayNumber. rewrite two53 in Hl. lia.
  - injection H as <-.
    apply getMaxDayInMonth_Throw in E as [(_ & Hbad) | (-> & _ & Hbad)]; [lia |].
    assert (Hy' : year st = 10000) by lia. rewrite Hy' in *.
    split; [reflexivity |]. unfold dayNumber. rewrite Hy', lastDayNumber_val. lia.
Qed.

Lemma stepBack_Throw_first (st : DMY) (e : error) :
  stepBack st = Throw e -> 1 <= month st <= 12 -> 1 <= year st <= 9999 ->
  e = InvalidYear 0 /\ year st = 1 /\ month st = 1.
Proof.
  intros H Hm Hy. unfold stepBack in H. cbv zeta in H.
  match type of H with context [getMaxDayInMonth ?m ?y] =>
    destruct (getMaxDayInMonth m y) as [mx | e' |] eqn:E end;
    cbn [bind] in H; try discriminate H.
  injection H as <-. revert E.
  unfold checkMonthRollover. cbn [year month day].
  fl_simpl. zbool; cbn [year month day]; fl_simpl; intros E;
    apply getMaxDayInMonth_Throw in E as [(_ & Hbad) | (-> & _ & Hbad)];
    try lia.
  assert (Hy1 : year st = 1) by lia. rewrite Hy1. repeat split; lia.
Qed.

Lemma backLoop_Throw_dayNumber (f : nat) :
  forall st e,
    backLoop f st = Throw e -> 1 <= month st <= 12 ->
    1 <= year st <= 9999 -> - 2 ^ 53 < day st ->
    e = InvalidYear 0 /\ dayNumber st < 1.
Proof.
  induction f as [| f IH]; intros st e H Hm Hy Hd.
  - cbn [backLoop] in H. destruct (day st <? 1); discriminate H.
  - rewrite backLoop_S in H.
    destruct (Z.ltb_spec (day st) 1) as [Hlt | Hge]; [| discriminate H].
    destruct (stepBack st) as [st1 | e' |] eqn:Hs; cbn [bind] in H;
      try discriminate H.
    + destruct (stepBack_Ok _ _ Hs Hm) as (mx & E & Hday & Hc).
      pose proof (getMaxDayInMonth_Ok _ _ _ E) as (Rm & Ry & Rx).
      rewrite fl_exact in Hday by (rewrite two53 in *; lia).
      destruct (IH _ _ H Rm Ry) as (He & Hn); [lia |].
      split; [exact He |].
      rewrite <- (stepBack_dayNumber _ _ Hs Hm); [exact Hn | lia].
    + injection H as <-.
      destruct (stepBack_Throw_first _ _ Hs Hm Hy) as (-> & Y & M).
      split; [reflexivity |]. unfold dayNumber. rewrite Y, M.
      change (daysBeforeYear 1) with 0. rewrite daysBeforeMonth_1. lia.
Qed.

(** The day step, described by the count: it returns the calendar date
    [n] days on, and fails below day 1 and above day [lastDayNumber]. *)
Lemma addDays_count (st : DMY) (n maxDay : Z) :
  getMaxDayInMonth (month st) (year st) = Ok maxDay ->
  0 <= day st <= 99 -> Z.abs n <= MAX_SAFE_INTEGER ->
  match addDays (Some (Int n)) st with
  | Ok st' => validDMY st' /\ dayNumber st' = dayNumber st + n
  | Throw e =>
      (e = InvalidYear 0 /\ dayNumber st + n < 1) \/
      (e = InvalidYear 10000 /\ lastDayNumber < dayNumber st + n)
  | OutOfFuel => False
  end.
Proof.
  intros E Hd Hn.
  pose proof (getMaxDayInMonth_Ok _ _ _ E) as (Hm & Hy & _).
  pose proof (daysBefore_nonneg (month st) (year st) Hm ltac:(lia)) as (N1 & N2).
  pose proof (addDays_outcome (Some (Int n)) st Hm) as O.
  unfold addDays in *.
  assert (Hs : isSafeInteger (Int n) = Some n) by (apply isSafeInteger_Some; auto).
  rewrite Hs in *. cbv zeta in *.
  change {| year := year st; month := month st; day := jsadd (day st) n |}
    with (withDay st (fl (day st + n))) in *.
  set (sta := withDay st (fl (day st + n))) in *.
  assert (Hma : 1 <= month sta <= 12) by exact Hm.
  assert (Hya : 1 <= year sta <= 9999) by exact Hy.
  rewrite MAX_SAFE_INTEGER_val in Hn.
  destruct (Z_lt_le_dec (day st + n) (2 ^ 53)) as [Hsmall | Hbig].
  - assert (Hex : day sta = day st + n).
    { unfold sta. cbn [withDay day]. apply fl_exact. rewrite two53 in *. lia. }
    assert (Hdn : dayNumber sta = dayNumber st + n).
    { unfold dayNumber. rewrite Hex. cbn [sta withDay year month]. lia. }
    destruct (backLoop loopFuel sta) as [stb | e |] eqn:Hb; cbn [bind] in *.
    + pose proof (backLoop_Ok _ _ _ Hb Hma) as (Hmb & Hdb & Hsame & Hmoved).
      pose proof (backLoop_dayNumber _ _ _ Hb Hma) as Hdnb.
      assert (Hyb : 1 <= year stb <= 10000).
      { destruct (Z_lt_le_dec (day sta) 1) as [Hlt | Hge].
        - destruct (Hmoved Hlt) as (Vb & _). apply validDMY_bounds in Vb. lia.
        - rewrite (Hsame Hge). lia. }
      destruct (forwardLoop loopFuel stb) as [st' | e |] eqn:Hf.
      * split; [exact (proj1 (forwardLoop_Ok _ _ _ Hf Hmb Hdb)) |].
        rewrite (forwardLoop_dayNumber _ _ _ Hf Hmb Hdb). lia.
      * right. destruct (forwardLoop_Throw_dayNumber _ _ _ Hf Hmb Hyb Hdb). split; [auto | lia].
      * exact O.
    + left. destruct (backLoop_Throw_dayNumber _ _ _ Hb Hma Hya); [rewrite two53; lia |].
      split; [auto | lia].
    + exact O.
  - assert (Hda : 2 ^ 53 <= day sta).
    { unfold sta. cbn [withDay day]. apply fl_large_pos. exact Hbig. }
    rewrite two53 in *.
    rewrite (backLoop_unfold sta Hma) in *.
    destruct (Z.ltb_spec (day sta) 1) as [Hlt | _]; [lia |]. cbn [bind] in *.
    destruct (forwardLoop loopFuel sta) as [st' | e |] eqn:Hf.
    + exfalso.
      pose proof (forwardLoop_Ok _ _ _ Hf Hma ltac:(lia)) as (V & _ & B).
      pose proof (validDMY_bounds _ V) as (_ & _ & Bd & Bi).
      assert (Hi : monthIndex sta = monthIndex st) by reflexivity.
      unfold monthIndex in *. lia.
    + right.
      destruct (forwardLoop_Throw_dayNumber _ _ _ Hf Hma ltac:(lia) ltac:(lia)) as (He & _).
      split; [exact He |]. unfold dayNumber, lastDayNumber. lia.
    + exact O.
Qed.

End DayCount.

(** ** [addDate], field by field *)

Section Fields.

Lemma addDate_daysOnly (s : string) (st : DMY) (maxDay n : Z) :
  _toDMY s = Ok st -> getMaxDayInMonth (month st) (year st) = Ok maxDay ->
  addDate s (daysOnly n) =
  (st' <- addDays (Some (Int n)) st ;; Ok (fromDMY st')).
Proof.
  intros Hdec E. rewrite (addDate_unfold _ _ _ _ Hdec E). reflexivity.
Qed.

Lemma addDate_monthsOnly (s : string) (st : DMY) (maxDay n : Z) :
  _toDMY s = Ok st -> getMaxDayInMonth (month st) (year st) = Ok maxDay ->
  addDate s (monthsOnly n) =
  (st' <- addMonths (day st =? maxDay) (Some (Int n)) st ;; Ok (fromDMY st')).
Proof.
  intros Hdec E. rewrite (addDate_unfold _ _ _ _ Hdec E).
  cbn [monthsOnly years months days addYears addDays bind].
  destruct (addMonths (day st =? maxDay) (Some (Int n)) st); reflexivity.
Qed.

Lemma month_year_in_range (st : DMY) :
  1 <= month st <= 12 -> 1 <= year st <= 9999 ->
  exists maxDay, getMaxDayInMonth (month st) (year st) = Ok maxDay /\ 28 <= maxDay <= 31.
Proof. intros Hm Hy. exact (getMaxDayInMonth_in_range _ _ Hm Hy). Qed.

End Fields.

(** X1: what a days increment does, in days.  For a string whose month
    and year are in range and a safe integer [n], [addDate] returns the
    calendar date [n] days after the fields read (counting the days of
    the Gregorian calendar from 0001-01-01), when that date lies between
    0001-01-01 and 9999-12-31; below it throws "Invalid year: 0", above
    "Invalid year: 10000". *)
Theorem addDate_days_count (s : string) (st : DMY) (n : Z) :
  toDMY s = Ok st -> 1 <= month st <= 12 -> 1 <= year st ->
  Z.abs n <= MAX_SAFE_INTEGER ->
  (1 <= dayNumber st + n <= lastDayNumber ->
   exists st', addDate s (daysOnly n) = Ok (fromDMY st') /\
               validDMY st' /\ dayNumber st' = dayNumber st + n) /\
  (dayNumber st + n < 1 -> addDate s (daysOnly n) = Throw (InvalidYear 0)) /\
  (lastDayNumber < dayNumber st + n ->
   addDate s (daysOnly n) = Throw (InvalidYear 10000)).
Proof.
  intros Hdec Hm Hy Hn. unfold toDMY in Hdec.
  pose proof (build_toDMY _ _ Hdec) as (_ & By & _ & Bd).
  destruct (month_year_in_range st Hm ltac:(lia)) as (mx & E & _).
  rewrite (addDate_daysOnly _ _ _ _ Hdec E).
  pose proof (addDays_count st n mx E Bd Hn) as C.
  destruct (addDays (Some (Int n)) st) as [st' | e |]; cbn [bind];
    [| | contradiction].
  - destruct C as (V & Hc). pose proof (dayNumber_range _ V).
    unfold lastDayNumber in *.
    split; [intros _; eauto | split; intros; lia].
  - unfold lastDayNumber in *. split; [| split]; intros Hr;
      destruct C as [(-> & C) | (-> & C)]; try lia; reflexivity.
Qed.

(** 86 days before 14 February 2023 is 20 November 2022. *)
Lemma addDate_days_count_witness :
  exists st', addDate "2023-02-14" (daysOnly (-86)) = Ok (fromDMY st') /\
              validDMY st' /\
              dayNumber st' = dayNumber {| year := 2023; month := 2; day := 14 |} + -86.
Proof.
  apply (proj1 (addDate_days_count "2023-02-14"
                  {| year := 2023; month := 2; day := 14 |} (-86)
                  ltac:(vm_compute; reflexivity) ltac:(cbn; lia) ltac:(cbn; lia)
                  ltac:(vm_compute; discriminate))).
  vm_compute. split; discriminate.
Defined.

Example dayNumber_epoch :
  dayNumber {| year := 1; month := 1; day := 1 |} = 1 /\
  dayNumber {| year := 1970; month := 1; day := 1 |} = 719163 /\
  dayNumber {| year := 9999; month := 12; day := 31 |} = lastDayNumber.
Proof. repeat split. Qed.



Section Identity.

Lemma addYears_zero (f : option number) (st : DMY) :
  zeroField f -> Z.abs (year st) < 2 ^ 53 -> addYears f st = Ok st.
Proof.
  intros [-> | ->] Hy; [reflexivity |]. cbn [addYears isSafeInteger].
  change (Z.abs 0 <=? MAX_SAFE_INTEGER) with true. cbv iota.
  unfold jsadd. rewrite Z.add_0_r, fl_exact by exact Hy. destruct st; reflexivity.
Qed.

Lemma addMonths_zero (f : option number) (st : DMY) (maxDay : Z) :
  zeroField f -> getMaxDayInMonth (month st) (year st) = Ok maxDay ->
  1 <= day st <= maxDay ->
  addMonths (day st =? maxDay) f st = Ok st.
Proof.
  intros [-> | ->] E B; [reflexivity |].
  pose proof (getMaxDayInMonth_Ok _ _ _ E) as (Hm & Hy & _).
  unfold addMonths. cbn [isSafeInteger].
  change (Z.abs 0 <=? MAX_SAFE_INTEGER) with true. cbv iota zeta.
  change (Z.quot 0 12) with 0. change (0 * 12) with 0.
  unfold checkMonthRollover. cbn [year month day].
  fl_simpl. rewrite !Z.add_0_r.
  destruct (Z.ltb_spec (month st) 1); [lia |].
  rewrite Z.gtb_ltb. destruct (Z.ltb_spec 12 (month st)); [lia |].
  cbn [year month day]. rewrite E. cbn [bind].
  destruct (Z.eqb_spec (day st) maxDay) as [Heq | Hne].
  - rewrite <- Heq. destruct st; reflexivity.
  - rewrite Z.min_l by lia. destruct st; reflexivity.
Qed.

Lemma addDays_zero (f : option number) (st : DMY) :
  zeroField f -> validDMY st -> addDays f st = Ok st.
Proof.
  intros [-> | ->] V; [reflexivity |].
  pose proof (validDMY_bounds _ V) as (_ & _ & Hd & _).
  pose proof (loops_on_valid _ V) as (Lb & Lf).
  unfold addDays. cbn [isSafeInteger].
  change (Z.abs 0 <=? MAX_SAFE_INTEGER) with true. cbv iota zeta.
  unfold jsadd. rewrite Z.add_0_r, fl_exact by (rewrite two53; lia).
  replace {| year := year st; month := month st; day := day st |} with st
    by (destruct st; reflexivity).
  rewrite Lb. cbn [bind]. exact Lf.
Qed.

End Identity.

(** X3: the increments that move nothing.  With no field present
    [addDate] returns its input for every string whose month and year are
    in range, whatever the day field (['2023-02-30'] comes back as it is);
    with every field absent or zero it returns every valid date
    unchanged. *)
Theorem addDate_identity :
  (forall (s : string) (st : DMY),
      toDMY s = Ok st -> 1 <= month st <= 12 -> 1 <= year st ->
      addDate s noIncrement = Ok s) /\
  (forall (s : string) (inc : Increment),
      isValidIsoDateString (IsString s) = Ok true ->
      zeroField (years inc) -> zeroField (months inc) -> zeroField (days inc) ->
      addDate s inc = Ok s).
Proof.
  split.
  - intros s st Hdec Hm Hy. unfold toDMY in Hdec.
    pose proof (build_toDMY _ _ Hdec) as (Hs & By & _).
    destruct (month_year_in_range st Hm ltac:(lia)) as (mx & E & _).
    rewrite (addDate_unfold _ _ _ _ Hdec E). cbn. f_equal. exact Hs.
  - intros s inc Hv Zy Zm Zd.
    apply isValidIsoDateString_true in Hv as (st & Hdec & V).
    pose proof (build_toDMY _ _ Hdec) as (Hs & _).
    pose proof (validDMY_bounds _ V) as (Hy & _).
    pose proof V as V'. apply isValidDate_true in V' as (mx & E & B).
    rewrite (addDate_unfold _ _ _ _ Hdec E).
    rewrite (addYears_zero _ _ Zy) by (rewrite two53; lia). cbn [bind].
    rewrite (addMonths_zero _ _ _ Zm E B). cbn [bind].
    rewrite (addDays_zero _ _ Zd V). cbn [bind]. f_equal. exact Hs.
Qed.

(** 30 February comes back from the empty increment; 29 February 2024
    from three zeros. *)
Lemma addDate_identity_witness :
  addDate "2023-02-30" noIncrement = Ok "2023-02-30" /\
  addDate "2024-02-29"
    {| days := Some (Int 0); months := Some (Int 0); years := Some (Int 0) |}
  = Ok "2024-02-29".
Proof.
  split.
  - apply (proj1 addDate_identity "2023-02-30"
             {| year := 2023; month := 2; day := 30 |});
      [vm_compute; reflexivity | cbn; lia | cbn; lia].
  - apply (proj2 addDate_identity);
      [vm_compute; reflexivity | right; reflexivity ..].
Defined.

(** X4: months there and back.  For a valid date that is the last day of
    its month, or a day up to the 27th, when [addDate] with [n] months
    returns [s'], [addDate] of [s'] with [-n] months returns the start.
    A day from the 28th to the 30th that is not the last of its month
    need not come back: 30 January plus one month is 28 February, and one
    month back from there is 31 January. *)
Theorem addDate_months_round_trip :
  (forall (s s' : string) (st : DMY) (maxDay n : Z),
      toDMY s = Ok st -> validDMY st ->
      getMaxDayInMonth (month st) (year st) = Ok maxDay ->
      day st <= 27 \/ day st = maxDay ->
      addDate s (monthsOnly n) = Ok s' ->
      addDate s' (monthsOnly (- n)) = Ok s) /\
  (addDate "2023-01-30" (monthsOnly 1) = Ok "2023-02-28" /\
   addDate "2023-02-28" (monthsOnly (-1)) = Ok "2023-01-31").
Proof.
  split; [| split; vm_compute; reflexivity].
  intros s s' st mx n Hdec V E Hday H. unfold toDMY in Hdec.
  pose proof (build_toDMY _ _ Hdec) as (Hs & _).
  pose proof (validDMY_bounds _ V) as (Hy & Hm & Hd & Hi).
  pose proof (getMaxDayInMonth_Ok _ _ _ E) as (_ & _ & Rx).
  assert (Hy' : Z.abs (year st) < 2 ^ 53 - 2 ^ 52)
    by (change (2 ^ 53 - 2 ^ 52) with 4503599627370496; lia).
  rewrite (addDate_monthsOnly _ _ _ n Hdec E) in H.
  apply bind_Ok in H as (st' & H1 & Hs'). injection Hs' as <-.
  destruct (addMonths_Some_Ok _ _ _ _ H1 Hm Hy') as (Hn & mx' & E' & Hidx & Hday').
  pose proof (getMaxDayInMonth_Ok _ _ _ E') as (Hm' & Hyr' & Rx').
  assert (V' : validDMY st').
  { apply (validDMY_intro st' mx' E'). destruct (day st =? mx); lia. }
  unfold fromDMY at 1.
  rewrite (addDate_monthsOnly _ _ _ (- n) (proj1 (build_valid _ V')) E').
  assert (Hn' : Z.abs (- n) <= MAX_SAFE_INTEGER) by lia.
  destruct (addMonths_Some_landing (day st' =? mx') (- n) st' Hm' Hyr' Hn')
    as (st2 & H2); [lia |].
  rewrite H2. cbn [bind]. f_equal.
  assert (Hy2 : Z.abs (year st') < 2 ^ 53 - 2 ^ 52)
    by (change (2 ^ 53 - 2 ^ 52) with 4503599627370496; lia).
  destruct (addMonths_Some_Ok _ _ _ _ H2 Hm' Hy2) as (_ & mx2 & E2 & Hidx2 & Hday2).
  pose proof (getMaxDayInMonth_Ok _ _ _ E2) as (Hm2 & _).
  unfold monthIndex in *.
  assert (Em : month st2 = month st) by lia.
  assert (Ey : year st2 = year st) by lia.
  rewrite Em, Ey, E in E2. injection E2 as <-.
  rewrite <- Hs. unfold fromDMY. rewrite Em, Ey. f_equal.
  rewrite Hday2, Hday'.
  destruct Hday as [Hlow | Hlast].
  - destruct (Z.eqb_spec (day st) mx); [lia |].
    rewrite (Z.min_l (day st) mx') by lia.
    destruct (Z.eqb_spec (day st) mx'); [lia |]. lia.
  - destruct (Z.eqb_spec (day st) mx); [| lia].
    rewrite Z.eqb_refl. lia.
Qed.

(** The last day of January 2023, 13 months on and back. *)
Lemma addDate_months_round_trip_witness :
  addDate "2024-02-29" (monthsOnly (- 13)) = Ok "2023-01-31".
Proof.
  apply (proj1 addDate_months_round_trip "2023-01-31" "2024-02-29"
           {| year := 2023; month := 1; day := 31 |} 31 13);
    try (vm_compute; reflexivity). right. reflexivity.
Defined.

Section Years.

(** Only February has a length that depends on the year. *)
Lemma getMaxDayInMonth_other_year (m y y' maxDay : Z) :
  getMaxDayInMonth m y = Ok maxDay -> 1 <= y' <= 9999 ->
  (m = 2 /\ maxDay = (if isLeapYear y then 29 else 28) /\
   getMaxDayInMonth m y' = Ok (if isLeapYear y' then 29 else 28)) \/
  (m <> 2 /\ getMaxDayInMonth m y' = Ok maxDay).
Proof.
  intros E Hy'. pose proof (getMaxDayInMonth_Ok _ _ _ E) as (Hm & Hy & _).
  unfold getMaxDayInMonth in *. zbool; try lia. injection E as <-.
  month_cases m; try (right; split; [lia | reflexivity]).
  left. split; [reflexivity |]. split; reflexivity.
Qed.

Lemma addYears_Int (st : DMY) (n : Z) :
  Z.abs n <= MAX_SAFE_INTEGER ->
  addYears (Some (Int n)) st =
  Ok {| year := fl (year st + n); month := month st; day := day st |}.
Proof.
  intros Hn. unfold addYears.
  assert (Hs : isSafeInteger (Int n) = Some n) by (apply isSafeInteger_Some; auto).
  rewrite Hs. reflexivity.
Qed.

End Years.

(** X5: a years increment alone.  For a valid date and a safe integer
    [addDate] never throws; when the year lands within 1..9999 it returns
    the same month and day in that year, which is a valid date unless the
    start is 29 February and the landing year is no leap year, and the
    opposite increment brings the start back in either case. *)
Theorem addDate_years_only (s : string) (st : DMY) (n : Z) :
  toDMY s = Ok st -> validDMY st -> Z.abs n <= MAX_SAFE_INTEGER ->
  (exists s', addDate s (yearsOnly n) = Ok s') /\
  (1 <= year st + n <= 9999 ->
   let st' := {| year := year st + n; month := month st; day := day st |} in
   addDate s (yearsOnly n) = Ok (fromDMY st') /\
   toDMY (fromDMY st') = Ok st' /\
   (validDMY st' <->
    ~ (month st = 2 /\ day st = 29 /\ isLeapYear (year st + n) = false)) /\
   addDate (fromDMY st') (yearsOnly (- n)) = Ok s).
Proof.
  intros Hdec V Hn. unfold toDMY in *.
  pose proof (build_toDMY _ _ Hdec) as (Hs & _).
  pose proof (validDMY_bounds _ V) as (Hy & Hm & Hd & _).
  pose proof V as V0. apply isValidDate_true in V0 as (mx & E & B).
  pose proof (getMaxDayInMonth_Ok _ _ _ E) as (_ & _ & Rx).
  rewrite (addDate_unfold _ _ _ _ Hdec E).
  cbn [yearsOnly years months days]. rewrite (addYears_Int _ _ Hn).
  cbn [bind addMonths addDays year month day].
  split; [eauto |]. intros Hl. cbv zeta.
  rewrite fl_exact by (rewrite two53; lia).
  split; [reflexivity |].
  assert (Hdec' : _toDMY (fromDMY {| year := year st + n; month := month st;
                                     day := day st |})
                  = Ok {| year := year st + n; month := month st; day := day st |}).
  { unfold fromDMY. cbn [year month day]. apply toDMY_build; lia. }
  split; [exact Hdec' |].
  destruct (getMaxDayInMonth_other_year _ _ (year st + n) _ E Hl)
    as [(M2 & Hmx & E') | (M2 & E')].
  - split.
    + unfold validDMY. cbn [year month day]. rewrite isValidDate_true.
      split.
      * intros (mx' & E'' & B') (_ & D & L). rewrite E' in E''. rewrite L in E''.
        injection E'' as <-. lia.
      * intros Hnot. eexists. split; [exact E' |].
        destruct (isLeapYear (year st + n)) eqn:L; [destruct (isLeapYear (year st)); lia |].
        assert (day st <> 29) by (intros D; apply Hnot; auto).
        destruct (isLeapYear (year st)); lia.
    + rewrite (addDate_unfold _ _ _ _ Hdec' E').
      cbn [yearsOnly years months days year month day].
      rewrite addYears_Int by lia.
      cbn [bind addMonths addDays year month day].
      replace (year st + n + - n) with (year st) by lia.
      rewrite fl_exact by (rewrite two53; lia). f_equal. exact Hs.
  - split.
    + unfold validDMY. cbn [year month day]. rewrite isValidDate_true.
      split; [intros _ (M & _); lia |].
      intros _. exists mx. auto.
    + rewrite (addDate_unfold _ _ _ _ Hdec' E').
      cbn [yearsOnly years months days year month day].
      rewrite addYears_Int by lia.
      cbn [bind addMonths addDays year month day].
      replace (year st + n + - n) with (year st) by lia.
      rewrite fl_exact by (rewrite two53; lia). f_equal. exact Hs.
Qed.

(** 29 February 2024 plus one year, and back. *)
Lemma addDate_years_only_witness :
  addDate "2024-02-29" (yearsOnly 1) = Ok "2025-02-29" /\
  addDate "2025-02-29" (yearsOnly (- 1)) = Ok "2024-02-29".
Proof.
  destruct (proj2 (addDate_years_only "2024-02-29"
                     {| year := 2024; month := 2; day := 29 |} 1
                     ltac:(vm_compute; reflexivity) ltac:(vm_compute; reflexivity)
                     ltac:(vm_compute; discriminate)))
    as (H1 & _ & _ & H2); [cbn; lia |].
  split; [exact H1 | exact H2].
Defined.

(** X6: one call or three.  For a valid date that is not in February, or
    is no later than the 27th, and an increment whose years keep the year
    within 1..9999, [addDate] with the whole increment gives what three
    calls give, the years first, then the months, then the days: the same
    string or the same error.  From 28 February the two differ. *)
Theorem addDate_combined_is_sequential :
  (forall (s : string) (st : DMY) (inc : Increment),
      toDMY s = Ok st -> validDMY st ->
      month st <> 2 \/ day st <= 27 ->
      (forall k, years inc = Some (Int k) -> 1 <= year st + k <= 9999) ->
      addDate s inc =
      (s1 <- addDate s (yearsPart inc) ;;
       s2 <- addDate s1 (monthsPart inc) ;;
       addDate s2 (daysPart inc))) /\
  (addDate "2023-02-28" {| days := None; months := Some (Int 1); years := Some (Int 1) |}
   = Ok "2024-03-31" /\
   addDate "2023-02-28" (yearsOnly 1) = Ok "2024-02-28" /\
   addDate "2024-02-28" (monthsOnly 1) = Ok "2024-03-28").
Proof.
  split; [| repeat split; vm_compute; reflexivity].
  intros s st inc Hdec V Hfeb Hyears. unfold toDMY in Hdec.
  pose proof (validDMY_bounds _ V) as (Hy & Hm & Hd & _).
  pose proof V as V0. apply isValidDate_true in V0 as (mx & E & B).
  pose proof (getMaxDayInMonth_Ok _ _ _ E) as (_ & _ & Rx).
  rewrite !(addDate_unfold _ _ _ _ Hdec E).
  cbn [yearsPart years months days addMonths addDays bind].
  pose proof (addYears_outcome (years inc) st) as O1.
  destruct (addYears (years inc) st) as [st1 | e |]; cbn [bind];
    [| reflexivity | contradiction].
  destruct O1 as (Hm1 & Hd1 & Hyr).
  assert (Hy1 : 1 <= year st1 <= 9999).
  { destruct Hyr as [[_ ->] | (k & Hk & Hsafe & Hfl)]; [exact Hy |].
    specialize (Hyears k Hk). rewrite Hfl, fl_exact by (rewrite two53; lia).
    exact Hyears. }
  assert (E1 : exists mx1, getMaxDayInMonth (month st1) (year st1) = Ok mx1 /\
                           day st1 <= mx1 /\ (day st1 =? mx1) = (day st =? mx)).
  { rewrite Hm1, Hd1.
    destruct (getMaxDayInMonth_other_year _ _ (year st1) _ E Hy1)
      as [(M2 & Hmx & E') | (M2 & E')].
    - eexists. split; [exact E' |].
      assert (Hlow : day st <= 27) by (destruct Hfeb; [lia | assumption]).
      destruct (isLeapYear (year st1)), (isLeapYear (year st));
        (split; [lia |]); zbool; lia || reflexivity.
    - exists mx. split; [exact E' |]. split; [lia | reflexivity]. }
  destruct E1 as (mx1 & E1 & B1 & Hlast).
  assert (V1 : validDMY st1) by (apply (validDMY_intro st1 mx1 E1); lia).
  rewrite (addDate_unfold _ _ _ _ (proj1 (build_valid _ V1)) E1).
  cbn [monthsPart years months days addYears addDays bind].
  rewrite Hlast.
  assert (Hm1' : 1 <= month st1 <= 12) by lia.
  pose proof (addMonths_outcome (day st =? mx) (months inc) st1 Hm1') as O2.
  destruct (addMonths (day st =? mx) (months inc) st1) as [st2 | e |];
    cbn [bind]; [| reflexivity | contradiction].
  assert (V2 : validDMY st2).
  { destruct O2 as [[_ ->] | (k & mx2 & _ & _ & E2 & Hday)]; [exact V1 |].
    pose proof (getMaxDayInMonth_Ok _ _ _ E2) as (_ & _ & Rx2).
    apply (validDMY_intro st2 mx2 E2). destruct (day st =? mx); lia. }
  pose proof V2 as V2'. apply isValidDate_true in V2' as (mx2 & E2 & _).
  rewrite (addDate_unfold _ _ _ _ (proj1 (build_valid _ V2)) E2).
  cbn [daysPart years months days addYears addMonths bind]. reflexivity.
Qed.

(** 14 February 2023 with three years, two months and a day. *)
Lemma addDate_combined_is_sequential_witness :
  addDate "2023-02-14"
    {| days := Some (Int 1); months := Some (Int 2); years := Some (Int 3) |}
  = (s1 <- addDate "2023-02-14" (yearsOnly 3) ;;
     s2 <- addDate s1 (monthsOnly 2) ;;
     addDate s2 (daysOnly 1)).
Proof.
  apply (proj1 addDate_combined_is_sequential "2023-02-14"
           {| year := 2023; month := 2; day := 14 |}
           {| days := Some (Int 1); months := Some (Int 2); years := Some (Int 3) |}).
  - vm_compute. reflexivity.
  - vm_compute. reflexivity.
  - right. cbn. lia.
  - intros k Hk. injection Hk as <-. cbn. lia.
Defined.

(** ** The calendar rules and the codec, on their own *)

(** X7: the leap-year rule on every integer.  [isLeapYear] holds exactly
    of the multiples of 4 that are no multiples of 100 or are multiples of
    400, negative years included; it repeats every 400 years and does not
    tell a year from its opposite. *)
Theorem isLeapYear_rule (y : Z) :
  (isLeapYear y = true <-> y mod 4 = 0 /\ (y mod 100 <> 0 \/ y mod 400 = 0)) /\
  isLeapYear (y + 400) = isLeapYear y /\
  isLeapYear (- y) = isLeapYear y.
Proof.
  split; [exact (isLeapYear_mod y) |]. split.
  - pose proof (isLeapYear_mod y) as L0.
    pose proof (isLeapYear_mod (y + 400)) as L1.
    replace ((y + 400) mod 4) with (y mod 4) in L1
      by (rewrite <- (Z.mod_add y 100 4) by lia; f_equal; lia).
    replace ((y + 400) mod 100) with (y mod 100) in L1
      by (rewrite <- (Z.mod_add y 4 100) by lia; f_equal; lia).
    replace ((y + 400) mod 400) with (y mod 400) in L1
      by (rewrite <- (Z.mod_add y 1 400) by lia; f_equal; lia).
    destruct (isLeapYear (y + 400)), (isLeapYear y); try reflexivity.
    + symmetry. apply L0, L1. reflexivity.
    + apply L1, L0. reflexivity.
  - unfold isLeapYear. rewrite !Z.rem_opp_l by lia.
    assert (H : forall r, (- r =? 0) = (r =? 0)) by (intros r; destruct r; reflexivity).
    rewrite !H. reflexivity.
Qed.

(** X8: the lengths of the months of a year.  For a year within 1..9999
    every month has 28 to 31 days, February has 29 in a leap year and 28
    otherwise, and the twelve lengths add up to 366 in a leap year and
    365 otherwise; outside 1..9999 the lookup of a month throws "Invalid
    year", and a month outside 1..12 throws "Invalid month number" whatever
    the year. *)
Theorem month_lengths (y : Z) :
  (1 <= y <= 9999 ->
   yearLength y = Ok (if isLeapYear y then 366 else 365) /\
   getMaxDayInMonth 2 y = Ok (if isLeapYear y then 29 else 28) /\
   forall m, 1 <= m <= 12 ->
             exists maxDay, getMaxDayInMonth m y = Ok maxDay /\ 28 <= maxDay <= 31) /\
  (y < 1 \/ 9999 < y ->
   forall m, 1 <= m <= 12 -> getMaxDayInMonth m y = Throw (InvalidYear y)) /\
  (forall m, m < 1 \/ 12 < m -> getMaxDayInMonth m y = Throw (InvalidMonth m)).
Proof.
  split; [| split].
  - intros Hy. split; [| split].
    + assert (L : forall m, 1 <= m <= 12 ->
                getMaxDayInMonth m y
                = Ok (nth (Z.to_nat m) (maxDateInMonth1to12 y) 0)).
      { intros m Hm. unfold getMaxDayInMonth. zbool; try lia. reflexivity. }
      unfold yearLength. cbn [fold_right].
      rewrite !L by lia. unfold maxDateInMonth1to12.
      destruct (isLeapYear y); reflexivity.
    + unfold getMaxDayInMonth. zbool; try lia. reflexivity.
    + intros m Hm. exact (getMaxDayInMonth_in_range m y Hm Hy).
  - intros Hy m Hm. unfold getMaxDayInMonth. zbool; try lia; reflexivity.
  - intros m Hm. unfold getMaxDayInMonth. zbool; try lia; reflexivity.
Qed.

(** The year 1900 is no leap year and has 365 days; year 0 has none the
    library will count. *)
Lemma month_lengths_witness :
  yearLength 1900 = Ok 365 /\
  getMaxDayInMonth 2 0 = Throw (InvalidYear 0) /\
  getMaxDayInMonth 13 0 = Throw (InvalidMonth 13).
Proof.
  split; [| split].
  - exact (proj1 (proj1 (month_lengths 1900) ltac:(lia))).
  - apply (proj1 (proj2 (month_lengths 0))); lia.
  - apply (proj2 (proj2 (month_lengths 0))); lia.
Defined.

(** X9: decoding by position.  [toDMY] returns exactly for the strings of
    ten characters with digits at positions 0-3, 5-6 and 8-9 and a dash at
    4 and 7, and then the fields are the numbers those digits write;
    every other string throws "Invalid date" with the string. *)
Theorem toDMY_by_position (s : string) :
  (forall d : DMY,
      toDMY s = Ok d <->
      exists y1 y2 y3 y4 m1 m2 d1 d2 : ascii,
        forallb isDigit [y1; y2; y3; y4; m1; m2; d1; d2] = true /\
        s = String y1 (String y2 (String y3 (String y4 (String "-"
              (String m1 (String m2 (String "-" (String d1 (String d2 "")))))))))
        /\
        d = {| year := 1000 * digitValue y1 + 100 * digitValue y2
                       + 10 * digitValue y3 + digitValue y4;
               month := 10 * digitValue m1 + digitValue m2;
               day := 10 * digitValue d1 + digitValue d2 |}) /\
  ((exists d, toDMY s = Ok d) \/ toDMY s = Throw (InvalidDate s)).
Proof.
  unfold toDMY, _toDMY. split.
  - intros d. split.
    + destruct (matchIsoDate s) as [[[yyyy mm] dd] |] eqn:Hmatch; [| discriminate].
      intros H. injection H as <-.
      apply matchIsoDate_Some in Hmatch
        as (y1 & y2 & y3 & y4 & m1 & m2 & d1 & d2 & -> & -> & -> & -> & Dy & Dm & Dd).
      exists y1, y2, y3, y4, m1, m2, d1, d2.
      cbn [forallb] in *. repeat rewrite andb_true_iff in Dy.
      repeat rewrite andb_true_iff in Dm. repeat rewrite andb_true_iff in Dd.
      destruct Dy as (-> & -> & -> & -> & _), Dm as (-> & -> & _), Dd as (-> & -> & _).
      split; [reflexivity |]. split; [reflexivity |].
      unfold Number. cbn [NumberFrom]. f_equal; lia.
    + intros (y1 & y2 & y3 & y4 & m1 & m2 & d1 & d2 & Hd & -> & ->).
      cbn [matchIsoDate]. rewrite Hd. cbn [andb Ascii.eqb Bool.eqb].
      unfold Number. cbn [NumberFrom]. f_equal. f_equal; lia.
  - destruct (matchIsoDate s) as [[[yyyy mm] dd] |]; [left; eauto | right; reflexivity].
Qed.

(** 28 June 815, digit by digit. *)
Lemma toDMY_by_position_witness :
  toDMY "0815-06-28" = Ok {| year := 815; month := 6; day := 28 |}.
Proof.
  apply (proj1 (toDMY_by_position "0815-06-28")).
  exists "0"%char, "8"%char, "1"%char, "5"%char, "0"%char, "6"%char, "2"%char, "8"%char.
  repeat split.
Defined.

(** X10: the validator on an encoded triple.  For fields that fit their
    widths (year 0..9999, month and day 0..99) [isValidIsoDateString] of
    the string [fromDMY] writes is [isValidDate] of the fields. *)
Theorem isValidIsoDateString_fromDMY (d : DMY) :
  0 <= year d <= 9999 -> 0 <= month d <= 99 -> 0 <= day d <= 99 ->
  isValidIsoDateString (IsString (fromDMY d))
  = isValidDate (day d) (month d) (year d).
Proof.
  intros Hy Hm Hd.
  pose proof (toDMY_build (day d) (month d) (year d) Hy Hm Hd) as H.
  unfold fromDMY, isValidIsoDateString. unfold _toDMY in H.
  destruct (matchIsoDate (buildIsoDateString (day d) (month d) (year d)))
    as [[[yyyy mm] dd] |]; [| discriminate H].
  injection H as -> -> ->. reflexivity.
Qed.

(** 30 February 2023 and 29 February 2024. *)
Lemma isValidIsoDateString_fromDMY_witness :
  isValidIsoDateString (IsString (fromDMY {| year := 2023; month := 2; day := 30 |}))
  = Ok false /\
  isValidIsoDateString (IsString (fromDMY {| year := 2024; month := 2; day := 29 |}))
  = Ok true.
Proof.
  split.
  - rewrite (isValidIsoDateString_fromDMY {| year := 2023; month := 2; day := 30 |});
      [reflexivity | cbn; lia ..].
  - rewrite (isValidIsoDateString_fromDMY {| year := 2024; month := 2; day := 29 |});
      [reflexivity | cbn; lia ..].
Defined.

(** ** The convenience wrappers *)

Section Wrappers.

(** The day step lands on the calendar date with the right count. *)
Lemma addDate_days_to (s : string) (st target : DMY) (n : Z) :
  _toDMY s = Ok st -> 1 <= month st <= 12 -> 1 <= year st ->
  Z.abs n <= MAX_SAFE_INTEGER ->
  validDMY target -> dayNumber target = dayNumber st + n ->
  addDate s (daysOnly n) = Ok (fromDMY target).
Proof.
  intros Hdec Hm Hy Hn Vt Ht.
  pose proof (build_toDMY _ _ Hdec) as (_ & By & _ & Bd).
  destruct (month_year_in_range st Hm ltac:(lia)) as (mx & E & _).
  rewrite (addDate_daysOnly _ _ _ _ Hdec E).
  pose proof (addDays_count st n mx E Bd Hn) as C.
  pose proof (dayNumber_range _ Vt) as R. unfold lastDayNumber in *.
  destruct (addDays (Some (Int n)) st) as [st' | e |]; cbn [bind];
    [| | contradiction].
  - destruct C as (V & Hc). rewrite (dayNumber_inj st' target V Vt) by lia.
    reflexivity.
  - destruct C as [(_ & C) | (_ & C)]; lia.
Qed.

(** What [todaysDate] writes: the weekday in the place of the day. *)
Lemma todaysDate_fields (now : Date) :
  calendarReading now ->
  1 <= getFullYear now <= 9999 /\ 0 <= getMonth now <= 11 /\
  0 <= getDay now <= 6 /\
  todaysDate now
  = fromDMY {| year := getFullYear now; month := getMonth now + 1; day := getDay now |} /\
  _toDMY (todaysDate now)
  = Ok {| year := getFullYear now; month := getMonth now + 1; day := getDay now |}.
Proof.
  intros (V & Hw & _).
  pose proof (validDMY_bounds {| year := getFullYear now; month := getMonth now + 1;
                                 day := getDate now |} V) as (Hy & Hm & _).
  cbn [year month day] in Hy, Hm.
  pose proof (weekDay_range (getDate now) (getMonth now + 1) (getFullYear now)) as Hr.
  rewrite <- Hw in Hr.
  assert (Hs : todaysDate now
               = fromDMY {| year := getFullYear now; month := getMonth now + 1;
                            day := getDay now |}).
  { unfold todaysDate, fromLocalDate, fromDMY. cbn [year month day].
    fl_simpl. reflexivity. }
  repeat split; try lia; [exact Hs |].
  rewrite Hs. unfold fromDMY. cbn [year month day]. apply toDMY_build; lia.
Qed.

Lemma early_day_valid (y m d : Z) :
  1 <= y <= 9999 -> 1 <= m <= 12 -> 1 <= d <= 28 ->
  validDMY {| year := y; month := m; day := d |}.
Proof.
  intros Hy Hm Hd. destruct (getMaxDayInMonth_in_range m y Hm Hy) as (mx & E & B).
  apply (validDMY_intro {| year := y; month := m; day := d |} mx E). cbn. lia.
Qed.

End Wrappers.

(** X11: today and tomorrow by the weekday.  For a [Date] of a year
    within 1..9999, [todaysDate] writes the weekday (0..6) as the day, so
    that on a Sunday the validator rejects its string and on every other
    day accepts it; [tomorrowsDate] never throws and returns the same
    month and year with the weekday plus one as the day. *)
Theorem todaysDate_tomorrowsDate (now : Date) :
  calendarReading now ->
  toDMY (todaysDate now)
  = Ok {| year := getFullYear now; month := getMonth now + 1; day := getDay now |} /\
  isValidIsoDateString (IsString (todaysDate now)) = Ok (1 <=? getDay now) /\
  tomorrowsDate now
  = Ok (fromDMY {| year := getFullYear now; month := getMonth now + 1;
                   day := getDay now + 1 |}) /\
  isValidIsoDateString
    (IsString (fromDMY {| year := getFullYear now; month := getMonth now + 1;
                          day := getDay now + 1 |})) = Ok true.
Proof.
  intros C. destruct (todaysDate_fields now C) as (Hy & Hm & Hw & Hs & Hdec).
  pose proof (early_day_valid (getFullYear now) (getMonth now + 1) (getDay now + 1)
                Hy ltac:(lia) ltac:(lia)) as Vt.
  split; [exact Hdec |]. split; [| split].
  - unfold isValidIsoDateString. unfold _toDMY in Hdec.
    destruct (matchIsoDate (todaysDate now)) as [[[yyyy mm] dd] |];
      [| discriminate Hdec].
    injection Hdec as -> -> ->.
    unfold isValidDate, isValidDateIn, defaultYearRange. cbn [minYear maxYear].
    destruct (getMaxDayInMonth_in_range (getMonth now + 1) (getFullYear now))
      as (mx & E & B); [lia | lia |].
    rewrite E. cbn [bind]. zbool; try lia; reflexivity.
  - unfold tomorrowsDate.
    apply (addDate_days_to _ _ _ 1 Hdec);
      [cbn [month]; lia | cbn [year]; lia | vm_compute; discriminate | exact Vt
      | unfold dayNumber; cbn [year month day]; lia].
  - exact (proj2 (build_valid _ Vt)).
Qed.

(** Friday 31 May 2013: today is written '2013-05-05', tomorrow
    '2013-05-06'. *)
Lemma todaysDate_tomorrowsDate_witness :
  toDMY (todaysDate may31st2013) = Ok {| year := 2013; month := 5; day := 5 |} /\
  tomorrowsDate may31st2013 = Ok "2013-05-06".
Proof.
  destruct (todaysDate_tomorrowsDate may31st2013 calendarReading_may31st2013)
    as (H1 & _ & H2 & _).
  split; [exact H1 | exact H2].
Defined.

(** X12: yesterday by the weekday.  For a [Date] of a year within
    1..9999, [yesterdaysDate] returns the same month and year with the
    weekday minus one as the day from Tuesday to Saturday; on a Sunday or
    a Monday it walks into the month before, to the calendar date one
    day before the "day" the weekday stands for, and throws "Invalid
    year: 0" in January of year 1. *)
Theorem yesterdaysDate_by_weekday (now : Date) :
  calendarReading now ->
  (2 <= getDay now ->
   yesterdaysDate now
   = Ok (fromDMY {| year := getFullYear now; month := getMonth now + 1;
                    day := getDay now - 1 |})) /\
  (getDay now <= 1 -> getFullYear now = 1 -> getMonth now = 0 ->
   yesterdaysDate now = Throw (InvalidYear 0)) /\
  (getDay now <= 1 -> 1 < getFullYear now \/ 0 < getMonth now ->
   exists st',
     yesterdaysDate now = Ok (fromDMY st') /\ validDMY st' /\
     dayNumber st'
     = dayNumber {| year := getFullYear now; month := getMonth now + 1; day := 1 |}
       + (getDay now - 2)).
Proof.
  intros C. destruct (todaysDate_fields now C) as (Hy & Hm & Hw & Hs & Hdec).
  set (today := {| year := getFullYear now; month := getMonth now + 1;
                   day := getDay now |}) in *.
  assert (Hsafe : Z.abs (-1) <= MAX_SAFE_INTEGER) by (vm_compute; discriminate).
  unfold yesterdaysDate. change {| days := Some (Int (-1)); months := None;
                                   years := None |} with (daysOnly (-1)).
  split; [| split].
  - intros Hd.
    apply (addDate_days_to _ _ _ (-1) Hdec);
      [cbn [today month]; lia | cbn [today year]; lia | exact Hsafe
      | apply early_day_valid; lia
      | unfold dayNumber; cbn [today year month day]; lia].
  - intros Hd Y M.
    pose proof (addDate_daysOnly (todaysDate now) today) as U.
    destruct (month_year_in_range today) as (mx & E & _);
      [cbn [today month]; lia | cbn [today year]; lia |].
    rewrite (U mx (-1) Hdec E).
    pose proof (addDays_count today (-1) mx E ltac:(cbn [today day]; lia) Hsafe) as Cn.
    assert (Hdn : dayNumber today = getDay now).
    { unfold dayNumber, today. cbn [year month day]. rewrite Y, M. reflexivity. }
    destruct (addDays (Some (Int (-1))) today) as [st' | e |]; cbn [bind];
      [| | contradiction].
    + destruct Cn as (V & Hc). pose proof (dayNumber_range _ V). lia.
    + destruct Cn as [(-> & _) | (_ & Cn)]; [reflexivity |].
      unfold lastDayNumber in Cn. lia.
  - intros Hd Hlater.
    pose proof (early_day_valid (getFullYear now) (getMonth now + 1) 1
                  Hy ltac:(lia) ltac:(lia)) as V1.
    pose proof (dayNumber_range _ V1) as R1. unfold lastDayNumber in R1.
    destruct (month_year_in_range today) as (mx & E & _);
      [cbn [today month]; lia | cbn [today year]; lia |].
    rewrite (addDate_daysOnly _ _ _ (-1) Hdec E).
    pose proof (addDays_count today (-1) mx E ltac:(cbn [today day]; lia) Hsafe) as Cn.
    assert (Hdn : dayNumber today
                  = dayNumber {| year := getFullYear now; month := getMonth now + 1;
                                 day := 1 |} + (getDay now - 1)).
    { unfold dayNumber, today. cbn [year month day]. lia. }
    assert (Hfirst : 32 <= dayNumber {| year := getFullYear now;
                                        month := getMonth now + 1; day := 1 |}).
    { unfold dayNumber. cbn [year month day].
      pose proof (daysBefore_nonneg (getMonth now + 1) (getFullYear now)
                    ltac:(lia) ltac:(lia)) as (N1 & N2).
      destruct Hlater as [Hyr | Hmo].
      - pose proof (daysBeforeYear_mono 2 (getFullYear now) ltac:(lia)) as M.
        change (daysBeforeYear 2) with 365 in M. lia.
      - pose proof (daysBeforeMonth_mono 2 (getMonth now + 1) (getFullYear now)
                      ltac:(lia) ltac:(lia)) as M.
        change (daysBeforeMonth 2 (getFullYear now)) with 31 in M. lia. }
    destruct (addDays (Some (Int (-1))) today) as [st' | e |]; cbn [bind];
      [| | contradiction].
    + destruct Cn as (V & Hc). exists st'. split; [reflexivity |].
      split; [exact V | lia].
    + exfalso. unfold lastDayNumber in Cn.
      destruct Cn as [(_ & Cn) | (_ & Cn)]; lia.
Qed.

(** Friday 31 May 2013: yesterday is written '2013-05-04'. *)
Lemma yesterdaysDate_by_weekday_witness :
  yesterdaysDate may31st2013 = Ok "2013-05-04".
Proof.
  apply (proj1 (yesterdaysDate_by_weekday may31st2013 calendarReading_may31st2013)).
  cbn. lia.
Defined.

(** 29 February 2024 with a year and no days more: the day step brings
    the date to 1 March 2025. *)
Lemma addDate_valid_output_witness :
  addDate "2024-02-29" {| days := Some (Int 0); months := None; years := Some (Int 1) |}
  = Ok "2025-03-01" /\
  isValidIsoDateString (IsString "2025-03-01") = Ok true.
Proof.
  assert (H : addDate "2024-02-29"
                {| days := Some (Int 0); months := None; years := Some (Int 1) |}
              = Ok "2025-03-01") by (vm_compute; reflexivity).
  split; [exact H |].
  apply (addDate_valid_output "2024-02-29" "2025-03-01"
           {| days := Some (Int 0); months := None; years := Some (Int 1) |});
    [vm_compute; reflexivity | right; discriminate | exact H].
Defined.
